(** * docs/content/mca.ipynb: the multiple correspondence analysis notebook

    The repository fragment is one Jupyter notebook.  Its code cells are
    embedded twice.  As syntax: module [Py] gives the fragment of Python's
    abstract grammar, module [Lexer] ties a tree to the text it stands for,
    module [Notebook] holds the cells with their source lines, trees and
    recorded outputs, and module [Sem] interprets the trees over an
    arbitrary library and runtime.  As programs: module [Prince] gives every
    code cell as a function on the kernel's namespace, over the pandas and
    prince operations the cell calls.  Lemma [trees_match_source] checks the
    trees against the text, lemma [cells_follow_trees] the cell functions
    against the trees. *)

From Stdlib Require Import String Ascii ZArith List Bool Lia DecimalString.
From stdpp Require Import base option list strings gmap.
Import ListNotations.
Open Scope string_scope.
Open Scope Z_scope.
Open Scope list_scope.
#[local] Set Warnings "-register-all".

(** ** Python syntax, after the node classes of the [ast] module *)

Module Py.

Inductive constant : Type :=
| CStr (s : string)
| CInt (n : Z)
| CBool (b : bool)
| CNone.

Inductive expr : Type :=
| EName (id : string)
| EConstant (c : constant)
| EList (elts : list expr)
| EAttribute (value : expr) (attr : string)
| ECall (func : expr) (args : list expr) (keywords : list (string * expr))
| EIfExp (test body orelse : expr).

(** Assignment targets: a plain name or an attribute of an object. *)
Inductive target : Type :=
| TName (id : string)
| TAttribute (value : expr) (attr : string).

Inductive stmt : Type :=
| SImport (name : string) (asname : option string)
| SAssign (tgt : target) (value : expr)
| SExpr (value : expr)
| SIf (test : expr) (body orelse : list stmt)
| SFor (tgt : string) (iter : expr) (body orelse : list stmt)
| SWhile (test : expr) (body orelse : list stmt)
| STry (body : list stmt) (handlers : list handler) (orelse finalbody : list stmt)
| SWith (ctx : expr) (asname : option string) (body : list stmt)
with handler : Type :=
| ExceptHandler (type : option expr) (name : option string) (body : list stmt).

(** The variable an expression is rooted at: [mca] for
    [mca.row_coordinates(dataset).head()]. *)
Fixpoint root (e : expr) : option string :=
  match e with
  | EName x => Some x
  | EAttribute v _ => root v
  | ECall f _ _ => root f
  | _ => None
  end.

(** The name a call goes to: the attribute for a method or module function,
    the identifier for a plain name. *)
Definition callee_name (f : expr) : option string :=
  match f with
  | EName x => Some x
  | EAttribute _ a => Some a
  | _ => None
  end.

(** A call site: the called expression with its positional and keyword
    arguments. *)
Record call_site : Type := CallSite {
  cs_func : expr;
  cs_args : list expr;
  cs_keywords : list (string * expr)
}.

(** Every call of an expression, in the order Python evaluates them: the
    called expression first, then the positional arguments from left to
    right, then the keyword arguments, then the call itself. *)
Fixpoint calls_expr (e : expr) : list call_site :=
  match e with
  | EName _ | EConstant _ => []
  | EList es => flat_map calls_expr es
  | EAttribute v _ => calls_expr v
  | ECall f args kws =>
      calls_expr f ++ flat_map calls_expr args
        ++ flat_map (fun kw => calls_expr (snd kw)) kws
        ++ [CallSite f args kws]
  | EIfExp c a b => calls_expr c ++ calls_expr a ++ calls_expr b
  end.

(** Attribute reads that are not themselves the called method, in
    evaluation order: [mca.eigenvalues_summary], the [style] of
    [x.head().style.format(..)]. *)
Fixpoint reads_expr (e : expr) : list (option string * string) :=
  match e with
  | EName _ | EConstant _ => []
  | EList es => flat_map reads_expr es
  | EAttribute v a => reads_expr v ++ [(root v, a)]
  | ECall f args kws =>
      match f with
      | EAttribute v _ => reads_expr v
      | _ => reads_expr f
      end ++ flat_map reads_expr args
          ++ flat_map (fun kw => reads_expr (snd kw)) kws
  | EIfExp c a b => reads_expr c ++ reads_expr a ++ reads_expr b
  end.

(** What a statement does to the library, step by step. *)
Inductive op : Type :=
| OpImport (module : string)
| OpCall (name : string)
| OpGet (attr : string)
| OpSet (attr : string).

Fixpoint ops_expr (e : expr) : list op :=
  match e with
  | EName _ | EConstant _ => []
  | EList es => flat_map ops_expr es
  | EAttribute v a => ops_expr v ++ [OpGet a]
  | ECall f args kws =>
      match f with
      | EAttribute v a => ops_expr v
      | _ => ops_expr f
      end ++ flat_map ops_expr args
          ++ flat_map (fun kw => ops_expr (snd kw)) kws
          ++ match callee_name f with
             | Some a => [OpCall a]
             | None => [OpCall ""]
             end
  | EIfExp c a b => ops_expr c ++ ops_expr a ++ ops_expr b
  end.

Fixpoint branch_free (e : expr) : bool :=
  match e with
  | EName _ | EConstant _ => true
  | EList es => forallb branch_free es
  | EAttribute v _ => branch_free v
  | ECall f args kws =>
      branch_free f && forallb branch_free args
        && forallb (fun kw => branch_free (snd kw)) kws
  | EIfExp _ _ _ => false
  end.

(** A straight-line statement is an import, an assignment or an expression
    statement with no conditional expression in it; every other statement
    carries control flow or resource management. *)
Definition straight_line (s : stmt) : bool :=
  match s with
  | SImport _ _ => true
  | SAssign (TName _) e => branch_free e
  | SAssign (TAttribute o _) e => branch_free o && branch_free e
  | SExpr e => branch_free e
  | _ => false
  end.

Inductive construct : Type := KIf | KFor | KWhile | KTry | KWith.


(** Try statements and with statements are the two constructs that can stop
    an exception. *)
Fixpoint handler_free (s : stmt) : bool :=
  let block := forallb handler_free in
  match s with
  | SImport _ _ | SAssign _ _ | SExpr _ => true
  | SIf _ b o => block b && block o
  | SFor _ _ b o => block b && block o
  | SWhile _ b o => block b && block o
  | STry _ _ _ _ => false
  | SWith _ _ _ => false
  end.

(** The expressions of a statement in the order they are met; the
    right-hand side of an assignment is evaluated before the object of an
    attribute target. *)
Fixpoint exprs (s : stmt) : list expr :=
  let block := flat_map exprs in
  match s with
  | SImport _ _ => []
  | SAssign (TName _) e => [e]
  | SAssign (TAttribute o _) e => [e; o]
  | SExpr e => [e]
  | SIf c b o => c :: block b ++ block o
  | SFor _ it b o => it :: block b ++ block o
  | SWhile c b o => c :: block b ++ block o
  | STry b hs o f =>
      block b
        ++ flat_map (fun h => match h with
                              | ExceptHandler ty _ hb =>
                                  option_list ty ++ flat_map exprs hb
                              end) hs
        ++ block o ++ block f
  | SWith ctx _ b => ctx :: block b
  end.

Definition calls_stmt (s : stmt) : list call_site :=
  flat_map calls_expr (exprs s).

Definition reads_stmt (s : stmt) : list (option string * string) :=
  flat_map reads_expr (exprs s).

(** The library operations of a simple statement, in evaluation order. *)
Definition ops_stmt (s : stmt) : list op :=
  match s with
  | SImport m _ => [OpImport m]
  | SAssign (TAttribute _ a) _ => flat_map ops_expr (exprs s) ++ [OpSet a]
  | _ => flat_map ops_expr (exprs s)
  end.

Definition bound (x : option string) : list target :=
  TName <$> option_list x.

(** Everything a statement binds or stores into. *)
Fixpoint targets (s : stmt) : list target :=
  let block := flat_map targets in
  match s with
  | SImport m a => [TName (default m a)]
  | SAssign t _ => [t]
  | SExpr _ => []
  | SIf _ b o => block b ++ block o
  | SFor x _ b o => TName x :: block b ++ block o
  | SWhile _ b o => block b ++ block o
  | STry b hs o f =>
      block b
        ++ flat_map (fun h => match h with
                              | ExceptHandler _ x hb =>
                                  bound x ++ flat_map targets hb
                              end) hs
        ++ block o ++ block f
  | SWith _ x b => bound x ++ block b
  end.

(** Does a target rebind the variable [x] or store into the object it
    names? *)
Definition touches (x : string) (t : target) : bool :=
  match t with
  | TName y => String.eqb x y
  | TAttribute o _ =>
      match root o with
      | Some y => String.eqb x y
      | None => false
      end
  end.

Definition keyword (k : string) (c : call_site) : option expr :=
  snd <$> List.find (fun kw => String.eqb k (fst kw)) (cs_keywords c).

Definition calls_named (a : string) (cs : list call_site) : list call_site :=
  List.filter (fun c => match callee_name (cs_func c) with
                        | Some b => String.eqb a b
                        | None => false
                        end) cs.

(** The requests a straight-line statement makes to the library and the
    runtime, known before it runs: which name is looked up, which attribute
    is read or set, how many arguments a call has. *)
Inductive kind : Type :=
| KLookup (x : string)
| KImport (m : string)
| KGetattr (a : string)
| KSetattr (a : string)
| KCall (positional : nat) (keywords : list string)
| KTruth
| KIterate.

Fixpoint plan_expr (e : expr) : list kind :=
  match e with
  | EName x => [KLookup x]
  | EConstant _ => []
  | EList es => flat_map plan_expr es
  | EAttribute o a => plan_expr o ++ [KGetattr a]
  | ECall f args kws =>
      plan_expr f ++ flat_map plan_expr args
        ++ flat_map (fun kw => plan_expr (snd kw)) kws
        ++ [KCall (length args) (fst <$> kws)]
  | EIfExp c _ _ => plan_expr c ++ [KTruth]
  end.

Definition plan_stmt (s : stmt) : list kind :=
  match s with
  | SImport m _ => [KImport m]
  | SAssign (TName _) e => plan_expr e
  | SAssign (TAttribute o a) e => plan_expr e ++ plan_expr o ++ [KSetattr a]
  | SExpr e => plan_expr e
  | _ => []
  end.

(** The constant a keyword argument is given, when it is one. *)
Definition constant_of (e : expr) : option constant :=
  match e with
  | EConstant c => Some c
  | _ => None
  end.

Definition constant_keywords (c : call_site) : option (list (string * constant)) :=
  mapM (fun kw => pair (fst kw) <$> constant_of (snd kw)) (cs_keywords c).

(** Induction over expressions, through the argument lists. *)
Section Induction.

Variable P : expr -> Prop.
Hypothesis HName : forall x, P (EName x).
Hypothesis HConstant : forall c, P (EConstant c).
Hypothesis HList : forall es, Forall P es -> P (EList es).
Hypothesis HAttribute : forall o a, P o -> P (EAttribute o a).
Hypothesis HCall : forall f args kws,
  P f -> Forall P args -> Forall (fun kw => P (snd kw)) kws -> P (ECall f args kws).
Hypothesis HIfExp : forall c a b, P c -> P a -> P b -> P (EIfExp c a b).

Fixpoint expr_induction (e : expr) : P e :=
  match e with
  | EName x => HName x
  | EConstant c => HConstant c
  | EList es =>
      HList es
        ((fix all (l : list expr) : Forall P l :=
            match l with
            | [] => @List.Forall_nil _ P
            | x :: l' => @List.Forall_cons _ P x l' (expr_induction x) (all l')
            end) es)
  | EAttribute o a => HAttribute o a (expr_induction o)
  | ECall f args kws =>
      HCall f args kws (expr_induction f)
        ((fix all (l : list expr) : Forall P l :=
            match l with
            | [] => @List.Forall_nil _ P
            | x :: l' => @List.Forall_cons _ P x l' (expr_induction x) (all l')
            end) args)
        ((fix all (l : list (string * expr)) : Forall (fun kw => P (snd kw)) l :=
            match l with
            | [] => @List.Forall_nil _ (fun kw => P (snd kw))
            | kw :: l' =>
                @List.Forall_cons _ (fun kw => P (snd kw)) kw l'
                  (expr_induction (snd kw)) (all l')
            end) kws)
  | EIfExp c a b =>
      HIfExp c a b (expr_induction c) (expr_induction a) (expr_induction b)
  end.

End Induction.

End Py.

(** ** From the text of a cell to its syntax tree

    [Lexer.lex] splits the source lines of a cell into tokens the way
    Python's tokenizer does for this fragment of the language, and
    [Lexer.unparse] writes a syntax tree back as tokens.  The tree given
    for a cell is the right one when both give the same tokens. *)

Module Lexer.
Import Py.

Inductive token : Type :=
| TId (s : string)
| TNum (n : Z)
| TStr (s : string)
| TOp (c : ascii)
| TNewline
| TIndent.

Inductive pending : Type :=
| PNone
| PId (acc : string)
| PNum (n : Z)
| PStr (acc : string).

Record state : Type := State {
  depth : nat;          (* open brackets *)
  pend : pending;       (* the token being read *)
  line_tokens : bool;   (* a token was met on this logical line *)
  indented : bool       (* the physical line starts with blanks *)
}.

Definition code (c : ascii) : nat := nat_of_ascii c.

Definition is_digit (c : ascii) : bool :=
  ((48 <=? code c) && (code c <=? 57))%nat.

Definition is_ident_start (c : ascii) : bool :=
  (((65 <=? code c) && (code c <=? 90))
   || ((97 <=? code c) && (code c <=? 122))
   || (code c =? 95))%nat.

Definition is_ident_char (c : ascii) : bool := is_ident_start c || is_digit c.

Definition digit_value (c : ascii) : Z := Z.of_nat (code c - 48).

Definition snoc (s : string) (c : ascii) : string := s +:+ String c EmptyString.

(** The first token of an indented line at bracket depth 0 is announced by
    [TIndent]. *)
Definition opening (st : state) : list token :=
  if andb (Nat.eqb (depth st) 0) (andb (indented st) (negb (line_tokens st)))
  then [TIndent] else [].

(** A character met between two tokens. *)
Definition start (st : state) (c : ascii) : state * list token :=
  let st' p d := State d p true (indented st) in
  if Ascii.eqb c "'" then (st' (PStr "") (depth st), opening st)
  else if is_ident_start c then
    (st' (PId (String c EmptyString)) (depth st), opening st)
  else if is_digit c then (st' (PNum (digit_value c)) (depth st), opening st)
  else if (code c =? 10)%nat then
    (State (depth st) PNone false false,
     if andb (Nat.eqb (depth st) 0) (line_tokens st) then [TNewline] else [])
  else if orb (code c =? 32)%nat (code c =? 9)%nat then
    (State (depth st) PNone (line_tokens st)
       (orb (indented st) (negb (line_tokens st))), [])
  else if orb (Ascii.eqb c "(") (Ascii.eqb c "[") then
    (st' PNone (S (depth st)), opening st ++ [TOp c])
  else if orb (Ascii.eqb c ")") (Ascii.eqb c "]") then
    (st' PNone (Nat.pred (depth st)), opening st ++ [TOp c])
  else (st' PNone (depth st), opening st ++ [TOp c]).

Definition step (st : state) (c : ascii) : state * list token :=
  let idle := State (depth st) PNone (line_tokens st) (indented st) in
  match pend st with
  | PNone => start st c
  | PStr acc =>
      if Ascii.eqb c "'" then (idle, [TStr acc])
      else (State (depth st) (PStr (snoc acc c)) (line_tokens st) (indented st), [])
  | PId acc =>
      if is_ident_char c
      then (State (depth st) (PId (snoc acc c)) (line_tokens st) (indented st), [])
      else let '(st1, ts) := start idle c in (st1, TId acc :: ts)
  | PNum n =>
      if is_digit c
      then (State (depth st) (PNum (10 * n + digit_value c)) (line_tokens st)
              (indented st), [])
      else let '(st1, ts) := start idle c in (st1, TNum n :: ts)
  end.

Fixpoint run (st : state) (cs : list ascii) : list token :=
  match cs with
  | [] => []
  | c :: cs' => let '(st1, ts) := step st c in ts ++ run st1 cs'
  end.

Definition newline : ascii := ascii_of_nat 10.

(** The lines of a cell, each closed by a line feed. *)
Definition lex (lines : list string) : list token :=
  run (State 0 PNone false false)
      (flat_map (fun l => list_ascii_of_string l ++ [newline]) lines).








(** The identifiers of a token list. *)
Definition words (ts : list token) : list string :=
  flat_map (fun t => match t with TId s => [s] | _ => [] end) ts.


End Lexer.

(** ** The notebook document *)

Module Notebook.
Import Py.

Inductive output_type : Type := execute_result | display_data | stream | error.

(** A [<table>] of a text/html rendering: the column headings of its head
    and, for every row of its body, the row heading and the data cells. *)
Record html_table : Type := HtmlTable {
  col_headings : list string;
  body_rows : list (string * list string)
}.

(** One recorded output: the lines of its text/plain rendering and, for the
    [Styler] results whose text/plain is only an object address, the table
    of the text/html rendering. *)
Record output : Type := Output {
  otype : output_type;
  text_plain : list string;
  html : option html_table
}.

Inductive cell : Type :=
| Markdown (first_line : string)
| Code (execution_count : option Z) (source : list string)
       (body : list stmt) (outputs : list output).

Definition str (s : string) : expr := EConstant (CStr s).
Definition int (n : Z) : expr := EConstant (CInt n).

Definition cell4 : cell :=
  Code (Some 1)
    [ "import pandas as pd";
      "";
      "dataset = pd.read_csv('https://archive.ics.uci.edu/ml/machine-learning-databases/balloons/adult+stretch.data')";
      "dataset.columns = ['Color', 'Size', 'Action', 'Age', 'Inflated']";
      "dataset.head()" ]
    [ SImport "pandas" (Some "pd");
      SAssign (TName "dataset")
        (ECall (EAttribute (EName "pd") "read_csv")
           [str "https://archive.ics.uci.edu/ml/machine-learning-databases/balloons/adult+stretch.data"]
           []);
      SAssign (TAttribute (EName "dataset") "columns")
        (EList [str "Color"; str "Size"; str "Action"; str "Age"; str "Inflated"]);
      SExpr (ECall (EAttribute (EName "dataset") "head") [] []) ]
    [ Output execute_result
        [ "    Color   Size   Action    Age Inflated";
          "0  YELLOW  SMALL  STRETCH  ADULT        T";
          "1  YELLOW  SMALL  STRETCH  CHILD        F";
          "2  YELLOW  SMALL      DIP  ADULT        F";
          "3  YELLOW  SMALL      DIP  CHILD        F";
          "4  YELLOW  LARGE  STRETCH  ADULT        T" ]
        None ].

Definition cell6 : cell :=
  Code (Some 2)
    [ "import prince";
      "";
      "mca = prince.MCA(";
      "    n_components=3,";
      "    n_iter=3,";
      "    copy=True,";
      "    check_input=True,";
      "    engine='sklearn',";
      "    random_state=42";
      ")";
      "mca = mca.fit(dataset)" ]
    [ SImport "prince" None;
      SAssign (TName "mca")
        (ECall (EAttribute (EName "prince") "MCA") []
           [ ("n_components", int 3);
             ("n_iter", int 3);
             ("copy", EConstant (CBool true));
             ("check_input", EConstant (CBool true));
             ("engine", str "sklearn");
             ("random_state", int 42) ]);
      SAssign (TName "mca")
        (ECall (EAttribute (EName "mca") "fit") [EName "dataset"] []) ]
    [].

Definition cell8 : cell :=
  Code (Some 13)
    [ "one_hot = pd.get_dummies(dataset)";
      "";
      "mca_no_one_hot = prince.MCA(one_hot=False)";
      "mca_no_one_hot = mca_no_one_hot.fit(one_hot)" ]
    [ SAssign (TName "one_hot")
        (ECall (EAttribute (EName "pd") "get_dummies") [EName "dataset"] []);
      SAssign (TName "mca_no_one_hot")
        (ECall (EAttribute (EName "prince") "MCA") []
           [("one_hot", EConstant (CBool false))]);
      SAssign (TName "mca_no_one_hot")
        (ECall (EAttribute (EName "mca_no_one_hot") "fit") [EName "one_hot"] []) ]
    [].

Definition cell10 : cell :=
  Code (Some 3)
    [ "mca.eigenvalues_summary" ]
    [ SExpr (EAttribute (EName "mca") "eigenvalues_summary") ]
    [ Output execute_result
        [ "          eigenvalue % of variance % of variance (cumulative)";
          "component                                                    ";
          "0              0.402        40.17%                     40.17%";
          "1              0.211        21.11%                     61.28%";
          "2              0.186        18.56%                     79.84%" ]
        None ].

Definition cell12 : cell :=
  Code (Some 4)
    [ "mca.row_coordinates(dataset).head()" ]
    [ SExpr (ECall
               (EAttribute
                  (ECall (EAttribute (EName "mca") "row_coordinates")
                     [EName "dataset"] [])
                  "head") [] []) ]
    [ Output execute_result
        [ "          0             1         2";
          "0  0.705387  8.460396e-15  0.758639";
          "1 -0.386586  8.514287e-15  0.626063";
          "2 -0.386586  6.249235e-15  0.626063";
          "3 -0.852014  6.872889e-15  0.562447";
          "4  0.783539 -6.333333e-01  0.130201" ]
        None ].

Definition cell13 : cell :=
  Code (Some 5)
    [ "mca.column_coordinates(dataset).head()" ]
    [ SExpr (ECall
               (EAttribute
                  (ECall (EAttribute (EName "mca") "column_coordinates")
                     [EName "dataset"] [])
                  "head") [] []) ]
    [ Output execute_result
        [ "                     0             1         2";
          "Color_PURPLE  0.117308  6.892024e-01 -0.641270";
          "Color_YELLOW -0.130342 -7.657805e-01  0.712523";
          "Size_LARGE    0.117308 -6.892024e-01 -0.641270";
          "Size_SMALL   -0.130342  7.657805e-01  0.712523";
          "Action_DIP   -0.853864 -1.953058e-15 -0.079340" ]
        None ].

Definition cell15 : cell :=
  Code (Some 6)
    [ "mca.plot(";
      "    dataset,";
      "    x_component=0,";
      "    y_component=1";
      ")" ]
    [ SExpr (ECall (EAttribute (EName "mca") "plot") [EName "dataset"]
               [("x_component", int 0); ("y_component", int 1)]) ]
    [ Output execute_result [ "alt.Chart(...)" ] None ].

Definition cell17 : cell :=
  Code (Some 7)
    [ "mca.row_contributions_.head().style.format('{:.0%}')" ]
    [ SExpr (ECall
               (EAttribute
                  (EAttribute
                     (ECall
                        (EAttribute
                           (EAttribute (EName "mca") "row_contributions_")
                           "head") [] [])
                     "style")
                  "format")
               [str "{:.0%}"] []) ]
    [ Output execute_result
        [ "<pandas.io.formats.style.Styler at 0x11f5aee90>" ]
        (Some (HtmlTable ["0"; "1"; "2"]
                 [ ("0", ["7%"; "0%"; "16%"]);
                   ("1", ["2%"; "0%"; "11%"]);
                   ("2", ["2%"; "0%"; "11%"]);
                   ("3", ["10%"; "0%"; "9%"]);
                   ("4", ["8%"; "10%"; "0%"]) ])) ].

Definition cell18 : cell :=
  Code (Some 8)
    [ "mca.column_contributions_.head().style.format('{:.0%}')" ]
    [ SExpr (ECall
               (EAttribute
                  (EAttribute
                     (ECall
                        (EAttribute
                           (EAttribute (EName "mca") "column_contributions_")
                           "head") [] [])
                     "style")
                  "format")
               [str "{:.0%}"] []) ]
    [ Output execute_result
        [ "<pandas.io.formats.style.Styler at 0x28347fc70>" ]
        (Some (HtmlTable ["0"; "1"; "2"]
                 [ ("Color_PURPLE", ["0%"; "24%"; "23%"]);
                   ("Color_YELLOW", ["0%"; "26%"; "26%"]);
                   ("Size_LARGE", ["0%"; "24%"; "23%"]);
                   ("Size_SMALL", ["0%"; "26%"; "26%"]);
                   ("Action_DIP", ["15%"; "0%"; "0%"]) ])) ].

Definition cell20 : cell :=
  Code (Some 9)
    [ "mca.row_cosine_similarities(dataset).head()" ]
    [ SExpr (ECall
               (EAttribute
                  (ECall (EAttribute (EName "mca") "row_cosine_similarities")
                     [EName "dataset"] [])
                  "head") [] []) ]
    [ Output execute_result
        [ "          0             1         2";
          "0  0.461478  6.638620e-29  0.533786";
          "1  0.152256  7.385455e-29  0.399316";
          "2  0.152256  3.978637e-29  0.399316";
          "3  0.653335  4.251294e-29  0.284712";
          "4  0.592606  3.871772e-01  0.016363" ]
        None ].

Definition cell21 : cell :=
  Code (Some 10)
    [ "mca.column_cosine_similarities(dataset).head()" ]
    [ SExpr (ECall
               (EAttribute
                  (ECall (EAttribute (EName "mca") "column_cosine_similarities")
                     [EName "dataset"] [])
                  "head") [] []) ]
    [ Output execute_result
        [ "                     0             1         2";
          "Color_PURPLE  0.015290  5.277778e-01  0.456920";
          "Color_YELLOW  0.015290  5.277778e-01  0.456920";
          "Size_LARGE    0.015290  5.277778e-01  0.456920";
          "Size_SMALL    0.015290  5.277778e-01  0.456920";
          "Action_DIP    0.530243  2.774134e-30  0.004578" ]
        None ].

(** The cells in document order; markdown cells keep their first line. *)
Definition cells : list cell :=
  [ Markdown "+++";
    Markdown "## Resources";
    Markdown "- [Computation of Multiple Correspondence Analysis, with code in R](https://core.ac.uk/download/pdf/6591520.pdf)";
    Markdown "## Data";
    cell4;
    Markdown "## Fitting";
    cell6;
    Markdown "The way MCA works is that it one-hot encodes the dataset, and then fits a correspondence analysis. In case your dataset is already one-hot encoded, you can specify `one_hot=False` to skip this step.";
    cell8;
    Markdown "## Eigenvalues";
    cell10;
    Markdown "## Coordinates";
    cell12;
    cell13;
    Markdown "## Visualization";
    cell15;
    Markdown "## Contributions";
    cell17;
    cell18;
    Markdown "## Cosine similarities";
    cell20;
    cell21 ].

Definition is_code (c : cell) : bool :=
  match c with Code _ _ _ _ => true | Markdown _ => false end.

Definition code_cells : list cell := List.filter is_code cells.

Definition body_of (c : cell) : list stmt :=
  match c with Code _ _ b _ => b | Markdown _ => [] end.

Definition source_of (c : cell) : list string :=
  match c with Code _ src _ _ => src | Markdown _ => [] end.

Definition outputs_of (c : cell) : list output :=
  match c with Code _ _ _ o => o | Markdown _ => [] end.

(** The statements of all code cells, in document order. *)
Definition program : list stmt := flat_map body_of cells.

Definition all_calls : list call_site := flat_map calls_stmt program.


Definition all_reads : list (option string * string) := flat_map reads_stmt program.

Definition all_outputs : list output := flat_map outputs_of cells.

(** *** The steps the specification names *)

Inductive step : Type :=
| Acquire      (* (a) the CSV read *)
| Encode       (* (b) one-hot encoding *)
| Fit          (* (c) model fitting *)
| Retrieve     (* (d) eigenvalues, coordinates, contributions, cosine similarities *)
| Render.      (* (e) the scatter plot *)

Definition one_of (names : list string) (a : string) : bool :=
  existsb (String.eqb a) names.

Definition retrieving_methods : list string :=
  ["row_coordinates"; "column_coordinates";
   "row_cosine_similarities"; "column_cosine_similarities"].






(** *** The estimators *)

Definition is_mca_constructor (e : expr) : bool :=
  match e with
  | ECall (EAttribute (EName m) c) _ _ => String.eqb m "prince" && String.eqb c "MCA"
  | _ => false
  end.

(** The variables bound to a [prince.MCA(..)] instance (each is then
    rebound to what its own [fit] returns, and used as the estimator). *)
Definition estimators : list string :=
  flat_map (fun s => match s with
                     | SAssign (TName x) e => if is_mca_constructor e then [x] else []
                     | _ => []
                     end) program.

(** The calls whose receiver is one of the estimators. *)
Definition estimator_calls : list call_site :=
  List.filter (fun c => match cs_func c with
                        | EAttribute (EName x) _ => one_of estimators x
                        | _ => false
                        end) all_calls.

Definition method_names (cs : list call_site) : list string :=
  omap (fun c => callee_name (cs_func c)) cs.

(** Does any call of any cell go to a method or function named [a],
    whatever it is called on: a variable, a module, or the result of
    another call? *)
Definition called (a : string) : bool := one_of (method_names all_calls) a.

(** The claim of the specification on the methods called, in its words. *)
Definition spec_methods : list string := ["fit"; "transform"; "plot"].

(** The methods that are handed a table. *)
Definition table_methods : list string := "fit" :: "plot" :: retrieving_methods.

Definition table_calls : list call_site :=
  List.filter (fun c => match callee_name (cs_func c) with
                        | Some a => one_of table_methods a
                        | None => false
                        end) all_calls.

(** The table-taking calls of one cell. *)
Definition table_calls_of (c : cell) : list call_site :=
  List.filter (fun c => match callee_name (cs_func c) with
                        | Some a => one_of table_methods a
                        | None => false
                        end) (flat_map calls_stmt (body_of c)).

(** The statements after the [n]-th of the program. *)
Definition after (n : nat) : list stmt := drop (S n) program.

Definition untouched (x : string) (ss : list stmt) : bool :=
  forallb (fun t => negb (touches x t)) (flat_map targets ss).

(** The methods called on the object of variable [x]. *)
Definition methods_on (x : string) : list string :=
  method_names
    (List.filter (fun c => match cs_func c with
                           | EAttribute (EName y) _ => String.eqb x y
                           | _ => false
                           end) all_calls).

(** *** Reading the recorded tables *)

Fixpoint split_words (acc : string) (cs : list ascii) : list string :=
  let flush := match acc with EmptyString => [] | _ => [acc] end in
  match cs with
  | [] => flush
  | c :: cs' =>
      if Ascii.eqb c " " then flush ++ split_words "" cs'
      else split_words (acc +:+ String c EmptyString) cs'
  end.

Definition words (line : string) : list string :=
  split_words "" (list_ascii_of_string line).

(** A printed data frame: the header line gives the column labels, every
    further line a row label followed by the cells. *)
Definition frame_columns (o : output) : list string :=
  match text_plain o with
  | header :: _ => words header
  | [] => []
  end.

Definition frame_rows (o : output) : list (list string) :=
  match text_plain o with
  | _ :: rows => words <$> rows
  | [] => []
  end.

Definition is_chart (o : output) : bool :=
  match text_plain o with
  | [l] => String.eqb l "alt.Chart(...)"
  | _ => false
  end.

Definition is_error (o : output) : bool :=
  match otype o with error => true | _ => false end.

Definition execution_count_of (c : cell) : option Z :=
  match c with Code n _ _ _ => n | Markdown _ => None end.

(** Rows and columns of a recorded table: those of the HTML table when it
    was kept, else the printed lines that carry a row label and cells. *)
Definition table_shape (o : output) : option (nat * nat) :=
  match html o with
  | Some t => Some (length (body_rows t), length (col_headings t))
  | None =>
      match List.filter (fun r => Nat.leb 2 (length r)) (frame_rows o) with
      | [] => None
      | r :: rows => Some (S (length rows), Nat.pred (length r))
      end
  end.

(** The one output of a cell. *)
Definition shown (c : cell) : option output :=
  match outputs_of c with
  | [o] => Some o
  | _ => None
  end.

(** The two [prince.MCA(..)] calls and what they give for a keyword. *)
Definition constructor_calls : list call_site := calls_named "MCA" all_calls.

Definition constructor_keyword (k : string) : list (option expr) :=
  keyword k <$> constructor_calls.

(** The identifiers and reserved words of the source text of all cells. *)
Definition source_words : list string :=
  flat_map (fun c => Lexer.words (Lexer.lex (source_of c))) cells.

Definition absent (ws : list string) : bool :=
  forallb (fun w => negb (one_of source_words w)) ws.

(** The identifiers and the string literals of the source text of all
    cells.  Whatever names a method in a cell, as an attribute, through an
    alias or as a string, is among them. *)
Definition source_names : list string :=
  flat_map (fun c =>
              flat_map (fun t => match t with
                                 | Lexer.TId x | Lexer.TStr x => [x]
                                 | _ => []
                                 end) (Lexer.lex (source_of c))) cells.

Definition mentioned (a : string) : bool := one_of source_names a.

End Notebook.

(** ** Running Python syntax over a library

    The cells call into pandas and prince, which are not part of the
    fragment.  The interpreter therefore takes the library and the runtime
    as a parameter: values [V], the heap of library objects [H], exceptions
    [E], and what importing, attribute access, calls, truth tests and
    iteration do.  Every one of them may raise.  A run returns the events it
    went through next to its result. *)

Module Sem.
Import Py.

Section Interpreter.

Context {V H E : Type}.

Record library : Type := Library {
  of_constant : constant -> V;
  make_list : list V -> V;
  name_error : string -> E;
  import_module : string -> H -> E + (V * H);
  getattr : V -> string -> H -> E + (V * H);
  setattr : V -> string -> V -> H -> E + (unit * H);
  call : V -> list V -> list (string * V) -> H -> E + (V * H);
  truth : V -> H -> E + (bool * H);
  iterate : V -> H -> E + (list V * H);
  exc_value : E -> V;
  exc_matches : E -> V -> bool
}.

Variable L : library.

(** The namespace of the kernel and the heap of the library. *)
Record state : Type := State {
  env : gmap string V;
  heap : H
}.

(** What the interpreter asks of the library and the runtime. *)
Inductive request : Type :=
| RLookup (x : string)
| RImport (m : string)
| RGetattr (o : V) (a : string)
| RSetattr (o : V) (a : string) (v : V)
| RCall (f : V) (args : list V) (kws : list (string * V))
| RTruth (v : V)
| RIterate (v : V).

Inductive event : Type :=
| Returned (r : request)
| Raised (r : request) (e : E)
| Caught (e : E).

Inductive result (A : Type) : Type :=
| Done (a : A) (s : state)
| Fail (e : E) (s : state)
| Timeout.

Arguments Done {A} a s.
Arguments Fail {A} e s.
Arguments Timeout {A}.

Definition M (A : Type) : Type := state -> list event * result A.

Definition ret {A} (a : A) : M A := fun s => ([], Done a s).

Definition bind {A B} (m : M A) (k : A -> M B) : M B :=
  fun s =>
    match m s with
    | (t, Done a s1) => let '(t', r) := k a s1 in (t ++ t', r)
    | (t, Fail e s1) => (t, Fail e s1)
    | (t, Timeout) => (t, Timeout)
    end.

#[local] Instance M_ret : MRet M := @ret.
#[local] Instance M_bind : MBind M := fun A B k m => bind m k.

(** One request to the library. *)
Definition ask {A} (r : request) (f : H -> E + (A * H)) : M A :=
  fun s =>
    match f (heap s) with
    | inl e => ([Raised r e], Fail e s)
    | inr (a, h) => ([Returned r], Done a (State (env s) h))
    end.

Definition lookup (x : string) : M V :=
  fun s =>
    match env s !! x with
    | Some v => ([Returned (RLookup x)], Done v s)
    | None => ([Raised (RLookup x) (name_error L x)], Fail (name_error L x) s)
    end.

Definition assign (x : string) (v : V) : M unit :=
  fun s => ([], Done tt (State (<[x := v]> (env s)) (heap s))).

(** An exception on its way out again, after a handler declined it. *)
Definition reraise {A} (e : E) : M A := fun s => ([], Fail e s).

Definition caught (e : E) : M unit := fun s => ([Caught e], Done tt s).

(** Run [m] and hand its exception, if any, to the caller as a value. *)
Definition attempt {A} (m : M A) : M (E + A) :=
  fun s =>
    match m s with
    | (t, Done a s1) => (t, Done (inr a) s1)
    | (t, Fail e s1) => (t, Done (inl e) s1)
    | (t, Timeout) => (t, Timeout)
    end.

Definition mapM {A B} (f : A -> M B) : list A -> M (list B) :=
  fix go l :=
    match l with
    | [] => ret []
    | x :: l' => y ← f x; ys ← go l'; ret (y :: ys)
    end.

Definition test (v : V) : M bool := ask (RTruth v) (truth L v).

(** Expressions: the called expression, then the arguments from left to
    right, then the call. *)
Fixpoint eval (e : expr) : M V :=
  match e with
  | EName x => lookup x
  | EConstant c => ret (of_constant L c)
  | EList es => vs ← mapM eval es; ret (make_list L vs)
  | EAttribute o a => ov ← eval o; ask (RGetattr ov a) (getattr L ov a)
  | ECall f args kws =>
      fv ← eval f;
      avs ← mapM eval args;
      kvs ← mapM (fun kw => v ← eval (snd kw); ret (fst kw, v)) kws;
      ask (RCall fv avs kvs) (call L fv avs kvs)
  | EIfExp c a b =>
      cv ← eval c; t ← test cv; if t : bool then eval a else eval b
  end.

Definition exec_block (run : stmt -> M unit) : list stmt -> M unit :=
  fix go ss :=
    match ss with
    | [] => ret tt
    | s :: ss' => run s ;; go ss'
    end.

Definition for_each (body : V -> M unit) : list V -> M unit :=
  fix go vs :=
    match vs with
    | [] => ret tt
    | v :: vs' => body v ;; go vs'
    end.

Definition bind_name (x : option string) (v : V) : M unit :=
  match x with Some y => assign y v | None => ret tt end.

(** The first handler whose class matches takes the exception; a bare
    [except:] matches everything; with no match the exception goes on. *)
Definition handle (block : list stmt -> M unit) (e : E) : list handler -> M unit :=
  fix go hs :=
    match hs with
    | [] => reraise e
    | ExceptHandler ty x hb :: hs' =>
        hit ← match ty with
               | None => ret true
               | Some t => cls ← eval t; ret (exc_matches L e cls)
               end;
        if hit : bool
        then caught e ;; bind_name x (exc_value L e) ;; block hb
        else go hs'
    end.

(** Statements.  The fuel bounds the nesting of statements and the number of
    turns of a while loop. *)
Fixpoint exec (fuel : nat) (s : stmt) : M unit :=
  match fuel with
  | O => fun _ => ([], Timeout)
  | S n =>
      let block := exec_block (exec n) in
      match s with
      | SImport m a =>
          v ← ask (RImport m) (import_module L m); assign (default m a) v
      | SAssign (TName x) e => v ← eval e; assign x v
      | SAssign (TAttribute o a) e =>
          v ← eval e; ov ← eval o;
          ask (RSetattr ov a v) (setattr L ov a v)
      | SExpr e => eval e ;; ret tt
      | SIf c b o =>
          cv ← eval c; t ← test cv; if t : bool then block b else block o
      | SFor x it b o =>
          iv ← eval it;
          vs ← ask (RIterate iv) (iterate L iv);
          for_each (fun v => assign x v ;; block b) vs;;
          block o
      | SWhile c b o =>
          cv ← eval c; t ← test cv;
          if t : bool then block b ;; exec n (SWhile c b o) else block o
      | STry b hs o f =>
          r ← attempt (block b);
          r' ← attempt (match r with
                         | inr _ => block o
                         | inl e => handle block e hs
                         end);
          block f;;
          match r' with
          | inr _ => ret tt
          | inl e => reraise e
          end
      | SWith ctx x b =>
          cm ← eval ctx;
          enter ← ask (RGetattr cm "__enter__") (getattr L cm "__enter__");
          leave ← ask (RGetattr cm "__exit__") (getattr L cm "__exit__");
          v ← ask (RCall enter [] []) (call L enter [] []);
          bind_name x v;;
          r ← attempt (block b);
          match r with
          | inr _ =>
              let none := of_constant L CNone in
              ask (RCall leave [none; none; none] [])
                  (call L leave [none; none; none] []);;
              ret tt
          | inl e =>
              let args := [exc_value L e] in
              quiet ← ask (RCall leave args []) (call L leave args []);
              t ← test quiet;
              if t : bool then caught e else reraise e
          end
      end
  end.

(** A cell runs its statements in order and stops at the first exception. *)
Definition run_cell (fuel : nat) (body : list stmt) : M unit :=
  exec_block (exec fuel) body.

Definition is_returned (ev : event) : Prop :=
  match ev with Returned _ => True | _ => False end.

(** A run is transparent when nothing was caught on the way and, if it ends
    in an exception, that exception is the one the last request raised and
    the only one raised. *)
Definition transparent {A} (out : list event * result A) : Prop :=
  match snd out with
  | Fail e _ =>
      exists t0 r, fst out = t0 ++ [Raised r e] /\ Forall is_returned t0
  | _ => Forall is_returned (fst out)
  end.

Definition propagating {A} (m : M A) : Prop := forall s, transparent (m s).

Definition kind_of (r : request) : kind :=
  match r with
  | RLookup x => KLookup x
  | RImport m => KImport m
  | RGetattr _ a => KGetattr a
  | RSetattr _ a _ => KSetattr a
  | RCall _ args kws => KCall (length args) (fst <$> kws)
  | RTruth _ => KTruth
  | RIterate _ => KIterate
  end.

(** The requests of a run, values left out. *)
Definition shape (t : list event) : list kind :=
  omap (fun ev => match ev with
                  | Returned r | Raised r _ => Some (kind_of r)
                  | Caught _ => None
                  end) t.

(** A computation follows the plan [p] when every run of it makes the
    requests of [p], in order, up to the end or up to the request that
    raises; in particular it never runs out of fuel. *)
Definition on_plan {A} (p : list kind) (Q : A -> Prop)
    (out : list event * result A) : Prop :=
  match snd out with
  | Done a _ => shape (fst out) = p /\ Q a
  | Fail _ _ => exists rest, shape (fst out) ++ rest = p
  | Timeout => False
  end.

(** [yields p Q m]: [m] follows [p] and its value, if any, satisfies [Q]. *)
Definition yields {A} (p : list kind) (Q : A -> Prop) (m : M A) : Prop :=
  forall s, on_plan p Q (m s).

Definition follows {A} (p : list kind) (m : M A) : Prop :=
  yields p (fun _ => True) m.

End Interpreter.

Arguments library : clear implicits.
Arguments state : clear implicits.
Arguments event : clear implicits.
Arguments result : clear implicits.
Arguments Done {V H E A} a s.
Arguments Fail {V H E A} e s.
Arguments Timeout {V H E A}.

End Sem.

(** ** The cells over pandas and prince

    The second embedding gives every code cell as a function on the
    kernel's namespace.  The numerical work of the libraries stays a
    parameter ([kernels]); what the cells themselves decide is written out:
    which variable is passed to which operation, and the arguments the two
    estimators are built with. *)

Module Prince.
Import Py.

Section Cells.

Context {DataFrame Model Chart Styler Err Seed : Type}.

Inductive exn : Type :=
| NameError (x : string)
| TypeError (keyword : string)
| NotFittedError
| LibraryError (e : Err).

(** The keyword arguments an estimator was built with ([None]: the argument
    was left to the library's default) and, once fitted, its model. *)
Record estimator : Type := Estimator {
  n_components : option Z;
  n_iter : option Z;
  copy : option bool;
  check_input : option bool;
  engine : option string;
  random_state : option Z;
  one_hot : option bool;
  fitted : option Model
}.

(** The operations of pandas, prince and the random number generator that
    the cells reach.  [ca_fit] is the correspondence analysis on an indicator
    matrix.  Tables are values here: what a library does to the object it is
    handed is the interpreter's matter, not this embedding's. *)
Record kernels : Type := Kernels {
  read_csv : string -> Err + DataFrame;
  set_columns : DataFrame -> list string -> Err + DataFrame;
  head : DataFrame -> Err + DataFrame;
  get_dummies : DataFrame -> Err + DataFrame;
  style_format : DataFrame -> string -> Err + Styler;
  seeded : Z -> Seed;
  advance : Seed -> Seed;
  ca_fit : estimator -> Seed -> DataFrame -> Err + Model;
  eigenvalues_summary : Model -> Err + DataFrame;
  row_coordinates : Model -> DataFrame -> Err + DataFrame;
  column_coordinates : Model -> DataFrame -> Err + DataFrame;
  row_contributions_ : Model -> Err + DataFrame;
  column_contributions_ : Model -> Err + DataFrame;
  row_cosine_similarities : Model -> DataFrame -> Err + DataFrame;
  column_cosine_similarities : Model -> DataFrame -> Err + DataFrame;
  plot : Model -> DataFrame -> Z -> Z -> Err + Chart
}.

Variable K : kernels.

(** The variables of the notebook, the state of the process-wide random
    number generator, and what the cells asked of the libraries so far, the
    latest request first. *)
Record session : Type := Session {
  ns_pd : bool;
  ns_prince : bool;
  ns_dataset : option DataFrame;
  ns_mca : option estimator;
  ns_one_hot : option DataFrame;
  ns_mca_no_one_hot : option estimator;
  rng : Seed;
  requested : list op
}.

Definition empty (g : Seed) : session :=
  Session false false None None None None g [].

(** What a cell shows below itself: the value of its last statement when
    that is an expression. *)
Inductive display : Type :=
| Table (df : DataFrame)
| Figure (c : Chart)
| Styled (st : Styler)
| Nothing.

(** A cell changes the session and ends with a value or an exception; the
    changes made before an exception stay. *)
Definition C (A : Type) : Type := session -> session * (exn + A).

Definition pure {A} (a : A) : C A := fun s => (s, inr a).

Definition raise {A} (e : exn) : C A := fun s => (s, inl e).

Definition then_ {A B} (m : C A) (k : A -> C B) : C B :=
  fun s =>
    match m s with
    | (s1, inr a) => k a s1
    | (s1, inl e) => (s1, inl e)
    end.

#[local] Instance C_ret : MRet C := @pure.
#[local] Instance C_bind : MBind C := fun A B k m => then_ m k.
#[local] Instance C_fmap : FMap C := fun A B f m => then_ m (fun a => pure (f a)).

Definition name {A} (x : string) (v : option A) : C A :=
  match v with
  | Some a => pure a
  | None => raise (NameError x)
  end.

Definition module (x : string) (b : bool) : C unit :=
  if b then pure tt else raise (NameError x).

Definition get {A} (f : session -> A) : C A := fun s => (s, inr (f s)).

Definition request (o : op) : C unit :=
  fun s => (Session (ns_pd s) (ns_prince s) (ns_dataset s) (ns_mca s) (ns_one_hot s)
              (ns_mca_no_one_hot s) (rng s) (o :: requested s), inr tt).

(** One operation of a library: it is asked for, and it answers or raises. *)
Definition lib {A} (o : op) (r : Err + A) : C A :=
  request o;;
  match r with
  | inl e => raise (LibraryError e)
  | inr a => pure a
  end.

(** Both libraries are taken to be installed: importing one binds its
    name. *)
Definition set_pd : C unit :=
  fun s => (Session true (ns_prince s) (ns_dataset s) (ns_mca s) (ns_one_hot s)
              (ns_mca_no_one_hot s) (rng s) (requested s), inr tt).

Definition set_prince : C unit :=
  fun s => (Session (ns_pd s) true (ns_dataset s) (ns_mca s) (ns_one_hot s)
              (ns_mca_no_one_hot s) (rng s) (requested s), inr tt).

Definition import_pandas_as_pd : C unit := request (OpImport "pandas");; set_pd.

Definition import_prince : C unit := request (OpImport "prince");; set_prince.

Definition set_dataset (df : DataFrame) : C unit :=
  fun s => (Session (ns_pd s) (ns_prince s) (Some df) (ns_mca s) (ns_one_hot s)
              (ns_mca_no_one_hot s) (rng s) (requested s), inr tt).

Definition set_mca (m : estimator) : C unit :=
  fun s => (Session (ns_pd s) (ns_prince s) (ns_dataset s) (Some m) (ns_one_hot s)
              (ns_mca_no_one_hot s) (rng s) (requested s), inr tt).

Definition set_one_hot (df : DataFrame) : C unit :=
  fun s => (Session (ns_pd s) (ns_prince s) (ns_dataset s) (ns_mca s) (Some df)
              (ns_mca_no_one_hot s) (rng s) (requested s), inr tt).

Definition set_mca_no_one_hot (m : estimator) : C unit :=
  fun s => (Session (ns_pd s) (ns_prince s) (ns_dataset s) (ns_mca s) (ns_one_hot s)
              (Some m) (rng s) (requested s), inr tt).

Definition set_rng (g : Seed) : C unit :=
  fun s => (Session (ns_pd s) (ns_prince s) (ns_dataset s) (ns_mca s) (ns_one_hot s)
              (ns_mca_no_one_hot s) g (requested s), inr tt).

(** *** The estimator *)

Definition blank : estimator :=
  Estimator None None None None None None None None.

Definition with_model (m : estimator) (md : Model) : estimator :=
  Estimator (n_components m) (n_iter m) (copy m) (check_input m) (engine m)
    (random_state m) (one_hot m) (Some md).

Definition set_keyword (m : estimator) (kw : string * constant) : exn + estimator :=
  let '(k, c) := kw in
  let '(Estimator nc ni cp ci en rs oh md) := m in
  match c with
  | CInt n =>
      if String.eqb k "n_components" then inr (Estimator (Some n) ni cp ci en rs oh md)
      else if String.eqb k "n_iter" then inr (Estimator nc (Some n) cp ci en rs oh md)
      else if String.eqb k "random_state" then inr (Estimator nc ni cp ci en (Some n) oh md)
      else inl (TypeError k)
  | CBool b =>
      if String.eqb k "copy" then inr (Estimator nc ni (Some b) ci en rs oh md)
      else if String.eqb k "check_input" then inr (Estimator nc ni cp (Some b) en rs oh md)
      else if String.eqb k "one_hot" then inr (Estimator nc ni cp ci en rs (Some b) md)
      else inl (TypeError k)
  | CStr x =>
      if String.eqb k "engine" then inr (Estimator nc ni cp ci (Some x) rs oh md)
      else inl (TypeError k)
  | CNone =>
      if String.eqb k "random_state" then inr (Estimator nc ni cp ci en None oh md)
      else inl (TypeError k)
  end.

(** Modelled from the spec: the constructor of [prince.MCA], absent from
    src/.  It stores the keyword arguments it is given; a keyword that the
    estimator does not have is a [TypeError], and so is here a value that is
    not of the kind the keyword stands for. *)
Definition MCA (kws : list (string * constant)) : exn + estimator :=
  foldl (fun r kw => match r with
                     | inr m => set_keyword m kw
                     | inl e => inl e
                     end) (inr blank) kws.

(** Modelled from the spec: how [prince.MCA.fit], absent from src/, reads
    [random_state].  The seed of the randomised decomposition is
    [random_state] when that is an integer and comes from the process-wide
    generator otherwise. *)
Definition seed_of (m : estimator) (ambient : Seed) : Seed :=
  match random_state m with
  | Some n => seeded K n
  | None => ambient
  end.

(** Modelled from the spec: how [prince.MCA.fit], absent from src/, reads
    [one_hot].  The library one-hot encodes its input unless [one_hot=False]
    (the notebook's own words: in case your dataset is already one-hot
    encoded, you can specify [one_hot=False] to skip this step). *)
Definition encodes (m : estimator) : bool := default true (one_hot m).

(** Modelled from the spec: [prince.MCA.fit], absent from src/: the
    correspondence analysis of the table, after one-hot encoding it unless
    the estimator was built with [one_hot=False]. *)
Definition fit_table (m : estimator) (g : Seed) (X : DataFrame) : Err + estimator :=
  match (if encodes m then get_dummies K X else inr X) with
  | inl e => inl e
  | inr indicator => sum_map id (with_model m) (ca_fit K m g indicator)
  end.

(** [prince.MCA(..)] with the given keywords. *)
Definition construct (kws : list (string * constant)) : C estimator :=
  request (OpCall "MCA");;
  match MCA kws with
  | inr m => pure m
  | inl e => raise e
  end.

(** [m.fit(X)] for the estimator [m] and the table [X]. *)
Definition fit (m : estimator) (X : DataFrame) : C estimator :=
  g ← get rng;
  match random_state m with
  | Some _ => pure tt
  | None => set_rng (advance K g)
  end;;
  lib (OpCall "fit") (fit_table m (seed_of m g) X).

(** An attribute or method that needs the fitted model. *)
Definition fitted_model {A} (o : op) (m : estimator) (f : Model -> Err + A) : C A :=
  match fitted m with
  | Some md => lib o (f md)
  | None => request o;; raise NotFittedError
  end.

(** *** The code cells *)

Definition url : string :=
  "https://archive.ics.uci.edu/ml/machine-learning-databases/balloons/adult+stretch.data".

Definition labels : list string := ["Color"; "Size"; "Action"; "Age"; "Inflated"].

Definition cell4 : C display :=
  import_pandas_as_pd;;
  df ← lib (OpCall "read_csv") (read_csv K url);
  set_dataset df;;
  dataset ← get ns_dataset ≫= name "dataset";
  df' ← lib (OpSet "columns") (set_columns K dataset labels);
  set_dataset df';;
  dataset ← get ns_dataset ≫= name "dataset";
  Table <$> lib (OpCall "head") (head K dataset).

Definition primary_keywords : list (string * constant) :=
  [ ("n_components", CInt 3);
    ("n_iter", CInt 3);
    ("copy", CBool true);
    ("check_input", CBool true);
    ("engine", CStr "sklearn");
    ("random_state", CInt 42) ].

(** What [MCA] makes of the keywords. *)
Definition primary : estimator :=
  Estimator (Some 3) (Some 3) (Some true) (Some true) (Some "sklearn") (Some 42)
    None None.

Definition cell6 : C display :=
  import_prince;;
  m ← construct primary_keywords;
  set_mca m;;
  mca ← get ns_mca ≫= name "mca";
  dataset ← get ns_dataset ≫= name "dataset";
  m' ← fit mca dataset;
  set_mca m';;
  pure Nothing.

Definition secondary_keywords : list (string * constant) :=
  [ ("one_hot", CBool false) ].

Definition secondary : estimator :=
  Estimator None None None None None None (Some false) None.

Definition cell8 : C display :=
  get ns_pd ≫= module "pd";;
  dataset ← get ns_dataset ≫= name "dataset";
  oh ← lib (OpCall "get_dummies") (get_dummies K dataset);
  set_one_hot oh;;
  get ns_prince ≫= module "prince";;
  m ← construct secondary_keywords;
  set_mca_no_one_hot m;;
  mca_no_one_hot ← get ns_mca_no_one_hot ≫= name "mca_no_one_hot";
  one_hot ← get ns_one_hot ≫= name "one_hot";
  m' ← fit mca_no_one_hot one_hot;
  set_mca_no_one_hot m';;
  pure Nothing.

Definition cell10 : C display :=
  mca ← get ns_mca ≫= name "mca";
  Table <$> fitted_model (OpGet "eigenvalues_summary") mca (eigenvalues_summary K).

(** [mca.<method>(dataset).head()] *)
Definition projection (method : string)
    (f : Model -> DataFrame -> Err + DataFrame) : C display :=
  mca ← get ns_mca ≫= name "mca";
  dataset ← get ns_dataset ≫= name "dataset";
  df ← fitted_model (OpCall method) mca (fun md => f md dataset);
  Table <$> lib (OpCall "head") (head K df).

Definition cell12 : C display :=
  projection "row_coordinates" (row_coordinates K).

Definition cell13 : C display :=
  projection "column_coordinates" (column_coordinates K).

Definition cell15 : C display :=
  mca ← get ns_mca ≫= name "mca";
  dataset ← get ns_dataset ≫= name "dataset";
  Figure <$> fitted_model (OpCall "plot") mca (fun md => plot K md dataset 0 1).

(** [mca.<attribute>.head().style.format('{:.0%}')] *)
Definition contributions (attribute : string) (f : Model -> Err + DataFrame)
  : C display :=
  mca ← get ns_mca ≫= name "mca";
  df ← fitted_model (OpGet attribute) mca f;
  hd ← lib (OpCall "head") (head K df);
  request (OpGet "style");;
  Styled <$> lib (OpCall "format") (style_format K hd "{:.0%}").

Definition cell17 : C display :=
  contributions "row_contributions_" (row_contributions_ K).

Definition cell18 : C display :=
  contributions "column_contributions_" (column_contributions_ K).

Definition cell20 : C display :=
  projection "row_cosine_similarities" (row_cosine_similarities K).

Definition cell21 : C display :=
  projection "column_cosine_similarities" (column_cosine_similarities K).

(** The cells that read the fitted primary estimator. *)
Definition retrievals : list (C display) :=
  [cell10; cell12; cell13; cell15; cell17; cell18; cell20; cell21].

(** The code cells after the loading cell, in document order. *)
Definition later_cells : list (C display) :=
  [cell6; cell8; cell10; cell12; cell13; cell15; cell17; cell18; cell20; cell21].

(** Every code cell of the document next to its function. *)
Definition code_cells : list (Notebook.cell * C display) :=
  [ (Notebook.cell4, cell4); (Notebook.cell6, cell6); (Notebook.cell8, cell8);
    (Notebook.cell10, cell10); (Notebook.cell12, cell12);
    (Notebook.cell13, cell13); (Notebook.cell15, cell15);
    (Notebook.cell17, cell17); (Notebook.cell18, cell18);
    (Notebook.cell20, cell20); (Notebook.cell21, cell21) ].

(** The requests of a cell's tree, in evaluation order. *)
Definition ops_of (c : Notebook.cell) : list op :=
  flat_map ops_stmt (Notebook.body_of c).

(** Does a cell end with an expression, whose value is then shown? *)
Definition shows_value (c : Notebook.cell) : bool :=
  match last (Notebook.body_of c) with
  | Some (SExpr _) => true
  | _ => false
  end.

Definition is_nothing (d : display) : bool :=
  match d with Nothing => true | _ => false end.

(** Cells run one after the other until one of them raises. *)
Fixpoint run_all (cs : list (C display)) (s : session)
  : session * list (exn + display) :=
  match cs with
  | [] => (s, [])
  | c :: cs' =>
      match c s with
      | (s1, inr d) => let '(s2, ds) := run_all cs' s1 in (s2, inr d :: ds)
      | (s1, inl e) => (s1, [inl e])
      end
  end.

(** Cells run one by one, as at the keyboard: a cell that raises leaves the
    changes it made, and the next cell runs all the same. *)
Definition replay (cs : list (C display)) (s : session) : session :=
  foldl (fun s c => fst (c s)) s cs.

(** The variables the retrieval cells read. *)
Definition same_primary (s1 s2 : session) : Prop :=
  ns_dataset s1 = ns_dataset s2 /\ ns_mca s1 = ns_mca s2.

End Cells.

Arguments exn : clear implicits.
Arguments estimator : clear implicits.
Arguments kernels : clear implicits.
Arguments session : clear implicits.
Arguments display : clear implicits.

End Prince.

(** ** Small libraries to run the cells on *)

Module Toy.
Import Py.

(** A library for the interpreter whose objects are the text of the
    expression that made them, whose heap counts the calls, and in which
    the named function raises. *)
Definition lib (failing : string) : Sem.library string nat string :=
  @Sem.Library string nat string
    (fun c => match c with
              | CStr s => s
              | CInt n => NilZero.string_of_int (Z.to_int n)
              | CBool b => if b then "True" else "False"
              | CNone => "None"
              end)
    (fun _ => "list")
    (fun x => "NameError: " +:+ x)
    (fun m h => inr (m, h))
    (fun o a h => inr (o +:+ "." +:+ a, h))
    (fun o a v h => inr (tt, S h))
    (fun f args kws h =>
       if String.eqb f failing then inl ("Error in " +:+ f)
       else inr (f +:+ "()", S h))
    (fun v h => inr (true, h))
    (fun v h => inr ([], h))
    (fun e => e)
    (fun e cls => true).

Definition start : Sem.state string nat := Sem.State ∅ 0%nat.

(** A state in which cell 4 has run. *)
Definition loaded : Sem.state string nat :=
  Sem.State (<["pd" := "pandas"]> (<["dataset" := "dataset"]> ∅)) 1%nat.

(** A state in which cells 4 and 6 have run: each of their names is bound
    to an object. *)
Definition fitted : Sem.state string nat :=
  Sem.State (<["pd" := "pandas"]>
               (<["dataset" := "dataset"]>
                  (<["prince" := "prince"]> (<["mca" := "mca"]> ∅)))) 2%nat.

(** [try: pd.read_csv() / except: pass] *)
Definition guarded_read : stmt :=
  STry [SExpr (ECall (EAttribute (EName "pd") "read_csv") [] [])]
       [ExceptHandler None None []] [] [].

(** Kernels for the cells: a table is its lines of cells, a model remembers
    the seed it was fitted with and the indicator matrix, and a chart the
    table and the two components it was drawn from. *)
Definition frame : Type := list (list string).

Definition chart : Type := (frame * Z * Z)%type.

Definition kernels : Prince.kernels frame (Z * frame) chart string string Z :=
  @Prince.Kernels frame (Z * frame) chart string string Z
    (fun _ => inr [ ["YELLOW"; "SMALL"; "STRETCH"; "ADULT"; "T"];
                    ["YELLOW"; "SMALL"; "STRETCH"; "ADULT"; "T"];
                    ["YELLOW"; "SMALL"; "STRETCH"; "CHILD"; "F"] ])
    (fun df labels => match df with
                      | [] => inl "no columns"
                      | h :: rows =>
                          if Nat.eqb (length h) (length labels)
                          then inr (labels :: rows)
                          else inl "Length mismatch"
                      end)
    (fun df => inr (take 6 df))
    (fun df => inr (List.map (List.map (fun c => c +:+ "_1")) df))
    (fun df fmt => inr fmt)
    (fun n => n)
    (fun g => g + 1)
    (fun m g X => inr (g, X))
    (fun md => inr (snd md))
    (fun md df => inr df)
    (fun md df => inr df)
    (fun md => inr (snd md))
    (fun md => inr (snd md))
    (fun md df => inr df)
    (fun md df => inr df)
    (fun md df x y => inr (df, x, y)).

Definition session0 (g : Z) : Prince.session frame (Z * frame) Z :=
  Prince.empty g.

End Toy.

(** ** Names and values across the cells

    What a cell reads from the namespace and what it leaves there, read off
    its tree, and what a run shows of it. *)

Module Flow.
Import Py.

(** The names an expression looks up, in the order of evaluation. *)
Fixpoint names_expr (e : expr) : list string :=
  match e with
  | EName x => [x]
  | EConstant _ => []
  | EList es => flat_map names_expr es
  | EAttribute o _ => names_expr o
  | ECall f args kws =>
      names_expr f ++ flat_map names_expr args
        ++ flat_map (fun kw => names_expr (snd kw)) kws
  | EIfExp c a b => names_expr c ++ names_expr a ++ names_expr b
  end.

(** The names a simple statement looks up, and the name it binds when it
    completes; storing into an attribute binds nothing. *)
Definition reads (s : stmt) : list string := flat_map names_expr (exprs s).

Definition binds (s : stmt) : list string :=
  match s with
  | SImport m a => [default m a]
  | SAssign (TName x) _ => [x]
  | _ => []
  end.

Definition assigned (ss : list stmt) : list string := flat_map binds ss.

Definition known (names : list string) (x : string) : bool :=
  existsb (String.eqb x) names.

(** The names a block needs from outside: those it looks up before one of
    its own statements (or [bound]) has bound them. *)
Fixpoint free_names (bound : list string) (ss : list stmt) : list string :=
  match ss with
  | [] => []
  | s :: ss' =>
      List.filter (fun x => negb (known bound x)) (reads s)
        ++ free_names (binds s ++ bound) ss'
  end.


Definition needs (c : Notebook.cell) : list string :=
  free_names [] (Notebook.body_of c).

Section Runs.

Context {V H E : Type}.

Definition bound (s : Sem.state V H) (x : string) : bool :=
  match Sem.env s !! x with Some _ => true | None => false end.

Definition not_a_lookup (r : @Sem.request V) : Prop :=
  match r with Sem.RLookup _ => False | _ => True end.

(** The names whose lookup failed in a run. *)
Definition name_errors (t : list (Sem.event V E)) : list string :=
  omap (fun ev => match ev with
                  | Sem.Raised (Sem.RLookup x) _ => Some x
                  | _ => None
                  end) t.

(** The state a run ends in, with a value or with an exception. *)
Definition final {A} (r : Sem.result V H E A) : option (Sem.state V H) :=
  match r with
  | Sem.Done _ s | Sem.Fail _ s => Some s
  | Sem.Timeout => None
  end.

(** A computation that leaves the namespace alone. *)
Definition keeps_env {A} (m : Sem.M A) : Prop :=
  forall s : Sem.state V H,
    match final (snd (m s) : Sem.result V H E A) with
    | Some s' => Sem.env s' = Sem.env s
    | None => True
    end.

(** With [names] bound, no lookup of [m] fails. *)
Definition scoped {A} (names : list string) (m : Sem.M A) : Prop :=
  forall s : Sem.state V H,
    forallb (bound s) names = true ->
    name_errors (fst (m s : list (Sem.event V E) * Sem.result V H E A)) = [].

(** [m] cannot complete unless [names] are bound. *)
Definition requires {A} (names : list string) (m : Sem.M A) : Prop :=
  forall (s : Sem.state V H) a s',
    snd (m s) = (Sem.Done a s' : Sem.result V H E A) ->
    forallb (bound s) names = true.

(** Outside of [names], the namespace of [s'] is that of [s]. *)
Definition agree_outside (names : list string) (s s' : Sem.state V H) : Prop :=
  forall y, ~ In y names -> Sem.env s' !! y = Sem.env s !! y.

(** What is bound in [s] is bound in [s']. *)
Definition grows (s s' : Sem.state V H) : Prop :=
  forall y, bound s y = true -> bound s' y = true.

(** The event [ev] is the request [r], answered or raised. *)
Definition asked (r : @Sem.request V) (ev : Sem.event V E) : Prop :=
  ev = Sem.Returned r \/ exists e, ev = Sem.Raised r e.

(** The event [ev] is the request [r] with the answer the library gave to
    it: returned, or raised with the library's exception. *)
Definition answered {A} (r : @Sem.request V) (answer : E + A)
    (ev : Sem.event V E) : Prop :=
  ev = match answer with
       | inr _ => Sem.Returned r
       | inl e => Sem.Raised r e
       end.

(** Constant keyword arguments as the library receives them. *)
Definition keyword_values (L : Sem.library V H E)
    (kws : list (string * constant)) : list (string * V) :=
  (fun kw => (fst kw, Sem.of_constant L (snd kw))) <$> kws.

(** The list object that [L] makes of string constants. *)
Definition strings (L : Sem.library V H E) (l : list string) : V :=
  Sem.make_list L ((fun x => Sem.of_constant L (CStr x)) <$> l).

End Runs.

(** *** What the cells hand to the library *)

(** The cells after cell 8 that hand [dataset] to a method of [mca]: the
    cell, the method, and the constant keyword arguments of the call, read
    off the cell's tree. *)
Definition dataset_calls : list (Notebook.cell * string * list (string * constant)) :=
  omap (fun c =>
          match Notebook.table_calls_of c with
          | [site] =>
              match cs_func site, cs_args site with
              | EAttribute (EName x) a, [EName y] =>
                  if String.eqb x "mca" && String.eqb y "dataset"
                  then (fun kvs => (c, a, kvs)) <$> constant_keywords site
                  else None
              | _, _ => None
              end
          | _ => None
          end) (drop 3 Notebook.code_cells).

(** A request that stores into an attribute. *)
Definition stores (k : kind) : bool :=
  match k with KSetattr _ => true | _ => false end.

(** The requests for the attribute [plot] among the requests of a run. *)
Definition plot_requests (ks : list kind) : list kind :=
  List.filter (fun k => match k with
                        | KGetattr a => String.eqb a "plot"
                        | _ => false
                        end) ks.

End Flow.

(** * Properties *)

Ltac monad :=
  unfold mbind, mret, Sem.M_bind, Sem.M_ret in *.

Ltac conjuncts := repeat match goal with |- _ /\ _ => split end.

Ltac computed := match goal with |- _ = _ => vm_compute; reflexivity end.

(** ** The interpreter: runs without a handler are transparent *)

Section Transparency.

Context {V H E : Type} (L : Sem.library V H E).

Abbreviation M := (@Sem.M V H E).

Lemma transparent_ret {A} (a : A) : Sem.propagating (Sem.ret a : M A).
Proof. intros s. unfold Sem.transparent, Sem.ret. simpl. constructor. Qed.

Lemma transparent_bind {A B} (m : M A) (k : A -> M B) :
  Sem.propagating m -> (forall a, Sem.propagating (k a)) ->
  Sem.propagating (Sem.bind m k).
Proof.
  intros Hm Hk s. specialize (Hm s). unfold Sem.bind.
  destruct (m s) as [t [a s1|e s1|]]; simpl in *; try exact Hm.
  specialize (Hk a s1). destruct (k a s1) as [t' r].
  unfold Sem.transparent in *. simpl in *.
  destruct r as [b s2|e s2|]; simpl in *.
  - apply Forall_app; split; assumption.
  - destruct Hk as (t0 & r & -> & Hq).
    exists (t ++ t0), r. split.
    + rewrite app_assoc. reflexivity.
    + apply Forall_app; split; assumption.
  - apply Forall_app; split; assumption.
Qed.

Lemma transparent_ask {A} (r : Sem.request) (f : H -> E + (A * H)) :
  Sem.propagating (Sem.ask r f : M A).
Proof.
  intros s. unfold Sem.ask, Sem.transparent.
  destruct (f (Sem.heap s)) as [e|[a h]]; simpl.
  - exists [], r. split; [reflexivity | constructor].
  - repeat constructor.
Qed.

Lemma transparent_lookup (x : string) : Sem.propagating (Sem.lookup L x).
Proof.
  intros s. unfold Sem.lookup, Sem.transparent.
  destruct (Sem.env s !! x); simpl.
  - repeat constructor.
  - exists [], (Sem.RLookup x). split; [reflexivity | constructor].
Qed.

Lemma transparent_assign (x : string) (v : V) :
  Sem.propagating (Sem.assign x v : M unit).
Proof. intros s. unfold Sem.assign, Sem.transparent. simpl. constructor. Qed.

Lemma transparent_mapM {A B} (f : A -> M B) (l : list A) :
  Forall (fun x => Sem.propagating (f x)) l -> Sem.propagating (Sem.mapM f l).
Proof.
  induction 1 as [|x l Hx _ IH]; simpl.
  - apply transparent_ret.
  - monad. apply transparent_bind; [exact Hx|]. intros y.
    apply transparent_bind; [exact IH|]. intros ys. apply transparent_ret.
Qed.

Lemma transparent_eval (e : Py.expr) : Sem.propagating (Sem.eval L e).
Proof.
  induction e as [x|c|es IH|o a IH|f args kws IHf IHa IHk|c a b IHc IHa IHb]
    using Py.expr_induction; simpl; monad.
  - apply transparent_lookup.
  - apply transparent_ret.
  - apply transparent_bind; [apply transparent_mapM; exact IH|].
    intros vs. apply transparent_ret.
  - apply transparent_bind; [exact IH|]. intros ov. apply transparent_ask.
  - apply transparent_bind; [exact IHf|]. intros fv.
    apply transparent_bind; [apply transparent_mapM; exact IHa|]. intros avs.
    apply transparent_bind.
    + apply transparent_mapM. eapply Forall_impl; [exact IHk|].
      intros kw Hkw. simpl. apply transparent_bind; [exact Hkw|].
      intros v. apply transparent_ret.
    + intros kvs. apply transparent_ask.
  - apply transparent_bind; [exact IHc|]. intros cv.
    apply transparent_bind; [apply transparent_ask|].
    intros [|]; assumption.
Qed.

Lemma transparent_block (run : Py.stmt -> M unit) (ss : list Py.stmt) :
  Forall (fun s => Sem.propagating (run s)) ss ->
  Sem.propagating (Sem.exec_block run ss).
Proof.
  induction 1 as [|s ss Hs _ IH]; simpl.
  - apply transparent_ret.
  - monad. apply transparent_bind; [exact Hs|]. intros _. exact IH.
Qed.

Lemma transparent_for_each (body : V -> M unit) (vs : list V) :
  (forall v, Sem.propagating (body v)) -> Sem.propagating (Sem.for_each body vs).
Proof.
  intros Hb. induction vs as [|v vs IH]; simpl.
  - apply transparent_ret.
  - monad. apply transparent_bind; [apply Hb|]. intros _. exact IH.
Qed.

Lemma handler_free_block (P : Py.stmt -> Prop) (ss : list Py.stmt) :
  (forall s, Py.handler_free s = true -> P s) ->
  forallb Py.handler_free ss = true -> Forall P ss.
Proof.
  intros HP Hss. apply Forall_forall. intros s Hin. apply HP.
  rewrite forallb_forall in Hss. apply Hss. apply list_elem_of_In. exact Hin.
Qed.

(** Whatever the library does, a statement without [try] and [with] lets
    every exception through, at any fuel. *)
Lemma transparent_exec (fuel : nat) :
  forall s, Py.handler_free s = true -> Sem.propagating (Sem.exec L fuel s).
Proof.
  induction fuel as [|n IH]; intros s Hs.
  - intros s0. unfold Sem.transparent. simpl. constructor.
  - assert (Hblock : forall ss, forallb Py.handler_free ss = true ->
              Sem.propagating (Sem.exec_block (Sem.exec L n) ss)).
    { intros ss Hss. apply transparent_block.
      apply handler_free_block; [exact IH | exact Hss]. }
    destruct s as [m a|[x|o a] e|e|c b o|x it b o|c b o|b hs o f|ctx x b];
      simpl in Hs; try discriminate; simpl; monad.
    + apply transparent_bind; [apply transparent_ask|]. intros v.
      apply transparent_assign.
    + apply transparent_bind; [apply transparent_eval|]. intros v.
      apply transparent_assign.
    + apply transparent_bind; [apply transparent_eval|]. intros v.
      apply transparent_bind; [apply transparent_eval|]. intros ov.
      apply transparent_ask.
    + apply transparent_bind; [apply transparent_eval|]. intros _.
      apply transparent_ret.
    + apply andb_true_iff in Hs as [Hb Ho].
      apply transparent_bind; [apply transparent_eval|]. intros cv.
      apply transparent_bind; [apply transparent_ask|].
      intros [|]; apply Hblock; assumption.
    + apply andb_true_iff in Hs as [Hb Ho].
      apply transparent_bind; [apply transparent_eval|]. intros iv.
      apply transparent_bind; [apply transparent_ask|]. intros vs.
      apply transparent_bind; [|intros _; apply Hblock; exact Ho].
      apply transparent_for_each. intros v.
      apply transparent_bind; [apply transparent_assign|].
      intros _. apply Hblock; exact Hb.
    + pose proof Hs as Hloop. apply andb_true_iff in Hs as [Hb Ho].
      apply transparent_bind; [apply transparent_eval|]. intros cv.
      apply transparent_bind; [apply transparent_ask|].
      intros [|]; [|apply Hblock; exact Ho].
      apply transparent_bind; [apply Hblock; exact Hb|].
      intros _. apply IH. simpl. exact Hloop.
Qed.

Lemma transparent_run_cell (fuel : nat) (body : list Py.stmt) :
  forallb Py.handler_free body = true ->
  Sem.propagating (Sem.run_cell L fuel body).
Proof.
  intros Hb. apply transparent_block.
  apply handler_free_block; [apply transparent_exec | exact Hb].
Qed.

End Transparency.

(** ** The interpreter: straight-line code follows its plan *)

Section Plans.

Context {V H E : Type} (L : Sem.library V H E).

Abbreviation M := (@Sem.M V H E).

Lemma shape_app (t t' : list (Sem.event V E)) :
  Sem.shape (t ++ t') = Sem.shape t ++ Sem.shape t'.
Proof. unfold Sem.shape. apply omap_app. Qed.

Lemma yields_ret {A} (Q : A -> Prop) (a : A) :
  Q a -> Sem.yields [] Q (Sem.ret a : M A).
Proof. intros HQ s. split; [reflexivity | exact HQ]. Qed.

Lemma yields_bind {A B} (p q : list Py.kind) (Q : A -> Prop) (R : B -> Prop)
    (m : M A) (k : A -> M B) :
  Sem.yields p Q m -> (forall a, Q a -> Sem.yields q R (k a)) ->
  Sem.yields (p ++ q) R (Sem.bind m k).
Proof.
  intros Hm Hk s. specialize (Hm s). unfold Sem.bind, Sem.on_plan in *.
  destruct (m s) as [t [a s1|e s1|]]; simpl in *.
  - destruct Hm as [Hm HQ]. specialize (Hk a HQ s1). unfold Sem.on_plan in Hk.
    destruct (k a s1) as [t' [b s2|e s2|]]; simpl in *.
    + destruct Hk as [Hk HR]. split; [|exact HR]. rewrite shape_app. congruence.
    + destruct Hk as [rest <-]. exists rest.
      rewrite shape_app, <- Hm, app_assoc. reflexivity.
    + exact Hk.
  - destruct Hm as [rest <-]. exists (rest ++ q). rewrite app_assoc. reflexivity.
  - exact Hm.
Qed.

Lemma yields_weaken {A} (p : list Py.kind) (Q R : A -> Prop) (m : M A) :
  (forall a, Q a -> R a) -> Sem.yields p Q m -> Sem.yields p R m.
Proof.
  intros HQR Hm s. specialize (Hm s). unfold Sem.on_plan in *.
  destruct (snd (m s)); [|exact Hm|exact Hm].
  destruct Hm as [Hp HQ]. split; [exact Hp | apply HQR, HQ].
Qed.

Lemma follows_ask {A} (r : Sem.request) (f : H -> E + (A * H)) :
  Sem.follows [Sem.kind_of r] (Sem.ask r f : M A).
Proof.
  intros s. unfold Sem.ask, Sem.on_plan.
  destruct (f (Sem.heap s)) as [e|[a h]]; simpl.
  - exists []. reflexivity.
  - split; [reflexivity | exact I].
Qed.

Lemma follows_lookup (x : string) : Sem.follows [Py.KLookup x] (Sem.lookup L x).
Proof.
  intros s. unfold Sem.lookup, Sem.on_plan.
  destruct (Sem.env s !! x); simpl.
  - split; [reflexivity | exact I].
  - exists []. reflexivity.
Qed.

Lemma follows_assign (x : string) (v : V) : Sem.follows [] (Sem.assign x v : M unit).
Proof. intros s. split; [reflexivity | exact I]. Qed.

(** Every element is evaluated once, in order, and the results stand in the
    given relation to the elements. *)
Lemma yields_mapM {A B} (plan : A -> list Py.kind) (Q : A -> B -> Prop)
    (f : A -> M B) (l : list A) :
  Forall (fun x => Sem.yields (plan x) (Q x) (f x)) l ->
  Sem.yields (flat_map plan l) (Forall2 Q l) (Sem.mapM f l).
Proof.
  induction 1 as [|x l Hx _ IH]; simpl.
  - apply yields_ret. constructor.
  - monad. eapply yields_bind; [exact Hx|]. intros y Hy.
    rewrite <- (app_nil_r (flat_map plan l)).
    eapply yields_bind; [exact IH|]. intros ys Hys.
    apply yields_ret. constructor; assumption.
Qed.

Lemma follows_eval (e : Py.expr) :
  Py.branch_free e = true -> Sem.follows (Py.plan_expr e) (Sem.eval L e).
Proof.
  induction e as [x|c|es IH|o a IH|f args kws IHf IHa IHk|c a b IHc IHa IHb]
    using Py.expr_induction; simpl; intros Hbf; monad.
  - apply follows_lookup.
  - apply yields_ret. exact I.
  - rewrite <- (app_nil_r (flat_map _ es)).
    eapply yields_bind; [|intros vs _; apply yields_ret; exact I].
    apply (yields_mapM _ (fun _ _ => True)). rewrite forallb_forall in Hbf.
    rewrite Forall_forall in IH |- *. intros x Hx.
    apply IH; [exact Hx|]. apply Hbf, list_elem_of_In, Hx.
  - eapply yields_bind; [apply IH; exact Hbf|]. intros ov _. apply follows_ask.
  - apply andb_true_iff in Hbf as [Hbf Hk].
    apply andb_true_iff in Hbf as [Hf Ha].
    eapply yields_bind; [apply IHf; exact Hf|]. intros fv _.
    eapply yields_bind.
    { apply (yields_mapM _ (fun _ _ => True)). rewrite forallb_forall in Ha.
      rewrite Forall_forall in IHa |- *. intros x Hx.
      apply IHa; [exact Hx|]. apply Ha, list_elem_of_In, Hx. }
    intros avs Havs. eapply yields_bind.
    { apply (yields_mapM (fun kw => Py.plan_expr (snd kw))
               (fun kw kv => fst kv = fst kw)).
      rewrite forallb_forall in Hk.
      rewrite Forall_forall in IHk |- *. intros kw Hkw.
      rewrite <- (app_nil_r (Py.plan_expr _)).
      eapply yields_bind; [|intros v _; apply yields_ret; reflexivity].
      apply IHk; [exact Hkw|]. apply Hk, list_elem_of_In, Hkw. }
    intros kvs Hkvs.
    replace (Py.KCall (length args) (fst <$> kws))
      with (Sem.kind_of (Sem.RCall fv avs kvs)); [apply follows_ask|].
    simpl. f_equal.
    + symmetry. eapply Forall2_length, Havs.
    + clear -Hkvs. induction Hkvs as [|kw kv kws kvs Hh _ IH].
      * reflexivity.
      * rewrite !fmap_cons. f_equal; assumption.
  - discriminate.
Qed.

Lemma follows_stmt (n : nat) (s : Py.stmt) :
  Py.straight_line s = true -> Sem.follows (Py.plan_stmt s) (Sem.exec L (S n) s).
Proof.
  destruct s as [m a|[x|o a] e|e|c b o|x it b o|c b o|b hs o f|ctx x b];
    simpl; intros Hs; try discriminate; monad.
  - rewrite <- (app_nil_r [_]).
    eapply yields_bind; [apply follows_ask|]. intros v _. apply follows_assign.
  - rewrite <- (app_nil_r (Py.plan_expr e)).
    eapply yields_bind; [apply follows_eval; exact Hs|].
    intros v _. apply follows_assign.
  - apply andb_true_iff in Hs as [Ho He].
    eapply yields_bind; [apply follows_eval; exact He|]. intros v _.
    eapply yields_bind; [apply follows_eval; exact Ho|]. intros ov _.
    apply (follows_ask (Sem.RSetattr ov a v)).
  - rewrite <- (app_nil_r (Py.plan_expr e)).
    eapply yields_bind; [apply follows_eval; exact Hs|].
    intros v _. apply yields_ret. exact I.
Qed.

(** A straight-line cell makes the requests of its plan, in order, whatever
    the library answers, and any fuel but zero is enough for it. *)
Lemma follows_run_cell (n : nat) (body : list Py.stmt) :
  forallb Py.straight_line body = true ->
  Sem.follows (flat_map Py.plan_stmt body) (Sem.run_cell L (S n) body).
Proof.
  unfold Sem.run_cell. induction body as [|s ss IH]; simpl; intros Hb.
  - apply yields_ret. exact I.
  - apply andb_true_iff in Hb as [Hs Hss]. monad.
    eapply yields_bind; [apply follows_stmt; exact Hs|].
    intros _ _. apply IH, Hss.
Qed.

(** Whatever a run on a plan asks is in the plan. *)
Lemma shape_within {A} (p : list Py.kind) (m : M A) :
  Sem.follows p m ->
  forall s k, In k (Sem.shape (fst (m s))) -> In k p.
Proof.
  intros Hm s k Hk. specialize (Hm s). unfold Sem.on_plan in Hm.
  destruct (snd (m s)) as [a s'|e s'|].
  - destruct Hm as [<- _]. exact Hk.
  - destruct Hm as [rest <-]. apply in_or_app. left. exact Hk.
  - destruct Hm.
Qed.

End Plans.

(** ** The cells over pandas and prince *)

Ltac plain x :=
  lazymatch x with
  | context [match _ with _ => _ end] => fail
  | _ => idtac
  end.

(** Case analysis on an innermost test of the goal. *)
Ltac cell_step :=
  match goal with
  | |- context [match ?x with _ => _ end] => plain x; destruct x eqn:?
  | H : context [match ?x with _ => _ end] |- _ => plain x; destruct x eqn:?
  end.

Ltac run_cells :=
  unfold Prince.cell4, Prince.cell6, Prince.cell8, Prince.cell10, Prince.cell12,
    Prince.cell13, Prince.cell15, Prince.cell17, Prince.cell18, Prince.cell20,
    Prince.cell21, Prince.projection, Prince.contributions, Prince.fit,
    Prince.fitted_model, Prince.construct, Prince.request, Prince.fit_table, Prince.seed_of, Prince.module,
    Prince.name, Prince.lib in *;
  unfold mbind, mret, fmap, Prince.C_bind, Prince.C_ret, Prince.C_fmap,
    Prince.then_, Prince.pure, Prince.raise, Prince.get,
    Prince.import_prince, Prince.import_pandas_as_pd, Prince.set_pd,
    Prince.set_prince, Prince.set_dataset,
    Prince.set_mca, Prince.set_one_hot, Prince.set_mca_no_one_hot,
    Prince.set_rng in *;
  simpl in *.

Ltac crush_cell := run_cells; cbn in *; repeat (cell_step; cbn in *; simplify_eq).

(** The entries that [l] has in front of [r]. *)
Ltac front l r :=
  lazymatch l with
  | r => lazymatch type of r with list ?T => constr:(@nil T) end
  | ?x :: ?l' => let p := front l' r in constr:(x :: p)
  end.

(** Name what a cell added to the requests of the session. *)
Ltac added :=
  lazymatch goal with
  | |- exists ops, ?l = ops ++ ?r /\ _ =>
      let p := front l r in
      exists p; split; [reflexivity|]; cbn
  end.

Ltac each_cell H :=
  simpl in H;
  repeat match type of H with
         | _ \/ _ => destruct H as [H|H]
         | False => destruct H
         end;
  subst.

Section CellFacts.

Context {DataFrame Model Chart Styler Err Seed : Type}.
Variable K : Prince.kernels DataFrame Model Chart Styler Err Seed.

Abbreviation session := (Prince.session DataFrame Model Seed).
Abbreviation cell := (@Prince.C DataFrame Model Err Seed (Prince.display DataFrame Chart Styler)).

Lemma MCA_primary :
  Prince.MCA Prince.primary_keywords
  = inr (Prince.primary : Prince.estimator Model) :> (Prince.exn Err + _).
Proof. reflexivity. Qed.

Lemma MCA_secondary :
  Prince.MCA Prince.secondary_keywords
  = inr (Prince.secondary : Prince.estimator Model) :> (Prince.exn Err + _).
Proof. reflexivity. Qed.

(** With [one_hot=False] the table goes to the analysis as it is. *)
Lemma fit_table_pre_encoded (m : Prince.estimator Model) (g : Seed) (X : DataFrame) :
  Prince.one_hot m = Some false ->
  Prince.fit_table K m g X
  = sum_map id (Prince.with_model m) (Prince.ca_fit K m g X).
Proof.
  intros Ho. unfold Prince.fit_table, Prince.encodes. rewrite Ho. reflexivity.
Qed.

(** Otherwise the library encodes the table first. *)
Lemma fit_table_encodes (m : Prince.estimator Model) (g : Seed) (X : DataFrame) :
  Prince.one_hot m = None ->
  Prince.fit_table K m g X
  = match Prince.get_dummies K X with
    | inl e => inl e
    | inr indicator =>
        sum_map id (Prince.with_model m) (Prince.ca_fit K m g indicator)
    end.
Proof.
  intros Ho. unfold Prince.fit_table, Prince.encodes. rewrite Ho. reflexivity.
Qed.

(** No cell after the loading cell changes the dataset. *)
Lemma later_cells_keep_dataset (c : cell) (s : session) :
  In c (Prince.later_cells K) ->
  Prince.ns_dataset (fst (c s)) = Prince.ns_dataset s.
Proof.
  intros Hc. each_cell Hc; crush_cell; congruence.
Qed.

(** Only cell 6 binds [mca]. *)
Lemma other_cells_keep_mca (c : cell) (s : session) :
  In c (Prince.cell8 K :: Prince.retrievals K) ->
  Prince.ns_mca (fst (c s)) = Prince.ns_mca s.
Proof.
  intros Hc. each_cell Hc; crush_cell; congruence.
Qed.

(** The fit of cell 6 reads the dataset and nothing else of the session: not
    the generator, not what earlier cells left in [mca]. *)
Lemma cell6_deterministic (s1 s2 : session) :
  Prince.ns_dataset s1 = Prince.ns_dataset s2 ->
  snd (Prince.cell6 K s1) = snd (Prince.cell6 K s2)
  /\ Prince.same_primary (fst (Prince.cell6 K s1)) (fst (Prince.cell6 K s2)).
Proof.
  intros Hd. unfold Prince.same_primary.
  destruct s1, s2. simpl in Hd. subst.
  crush_cell; split; try split; simpl; congruence.
Qed.

(** A retrieval cell shows what [mca] and [dataset] determine. *)
Lemma retrieval_deterministic (c : cell) (s1 s2 : session) :
  In c (Prince.retrievals K) ->
  Prince.same_primary s1 s2 -> snd (c s1) = snd (c s2).
Proof.
  intros Hc [Hd Hm]. destruct s1, s2. simpl in Hd, Hm. subst.
  each_cell Hc; crush_cell; congruence.
Qed.

Lemma later_cells_split (c : cell) :
  In c (Prince.later_cells K) ->
  c = Prince.cell6 K \/ In c (Prince.cell8 K :: Prince.retrievals K).
Proof.
  intros Hc. each_cell Hc; [left; reflexivity | right; simpl; tauto ..].
Qed.

Lemma later_cells_keep_same_primary (c : cell) (s1 s2 : session) :
  In c (Prince.later_cells K) ->
  Prince.same_primary s1 s2 ->
  Prince.same_primary (fst (c s1)) (fst (c s2)).
Proof.
  intros Hc [Hd Hm]. pose proof Hc as Hc'.
  apply later_cells_split in Hc as [->|Hc].
  - apply cell6_deterministic, Hd.
  - split.
    + rewrite !later_cells_keep_dataset by exact Hc'. exact Hd.
    + rewrite !other_cells_keep_mca by exact Hc. exact Hm.
Qed.

Lemma replay_keeps_same_primary (cs : list cell) (s1 s2 : session) :
  Forall (fun c => In c (Prince.later_cells K)) cs ->
  Prince.same_primary s1 s2 ->
  Prince.same_primary (Prince.replay cs s1) (Prince.replay cs s2).
Proof.
  intros Hcs. revert s1 s2.
  induction Hcs as [|c cs Hc _ IH]; intros s1 s2 Hs; simpl.
  - exact Hs.
  - apply IH, later_cells_keep_same_primary; assumption.
Qed.

(** Cell 8 succeeds as soon as the encoding and the analysis do. *)
Lemma cell8_succeeds (s : session) (d oh : DataFrame) (md : Model) :
  Prince.ns_pd s = true -> Prince.ns_prince s = true ->
  Prince.ns_dataset s = Some d ->
  Prince.get_dummies K d = inr oh ->
  Prince.ca_fit K Prince.secondary (Prince.rng s) oh = inr md ->
  snd (Prince.cell8 K s) = inr Prince.Nothing
  /\ Prince.ns_one_hot (fst (Prince.cell8 K s)) = Some oh
  /\ Prince.ns_mca_no_one_hot (fst (Prince.cell8 K s))
     = Some (Prince.with_model Prince.secondary md).
Proof.
  intros Hpd Hpr Hd Hoh Hfit. destruct s. cbn in Hpd, Hpr, Hd, Hfit. subst.
  unfold Prince.secondary in *. run_cells. cbn. rewrite Hoh. cbn.
  rewrite Hfit. cbn. repeat split.
Qed.

(** What cell 15 shows is the plot of the dataset on components 0 and 1. *)
Lemma cell15_draws (s : session) (ch : Chart) :
  snd (Prince.cell15 K s) = inr (Prince.Figure ch) ->
  exists m md d,
    Prince.ns_mca s = Some m /\ Prince.fitted m = Some md
    /\ Prince.ns_dataset s = Some d
    /\ Prince.plot K md d 0 1 = inr ch.
Proof.
  intros Hout. destruct s. crush_cell. eauto 10.
Qed.

(** And cell 15 does show it, as soon as the plot is drawn. *)
Lemma cell15_shows (s : session) (m : Prince.estimator Model) (md : Model)
    (d : DataFrame) (ch : Chart) :
  Prince.ns_mca s = Some m -> Prince.fitted m = Some md ->
  Prince.ns_dataset s = Some d ->
  Prince.plot K md d 0 1 = inr ch ->
  snd (Prince.cell15 K s) = inr (Prince.Figure ch).
Proof.
  intros Hm Hmd Hd Hplot. destruct s. cbn in Hm, Hd. subst.
  run_cells. cbn. rewrite Hmd. cbn. rewrite Hplot. reflexivity.
Qed.

(** The two embeddings agree.  A cell function asks the libraries for what
    the cell's tree asks, in the order of evaluation: all of it when it
    succeeds, a first part of it when it raises; and it shows a value
    exactly when the tree ends with an expression. *)
Lemma cells_follow_trees (nc : Notebook.cell) (c : cell) (s : session) :
  In (nc, c) (Prince.code_cells K) ->
  exists ops,
    Prince.requested (fst (c s)) = ops ++ Prince.requested s
    /\ match snd (c s) with
       | inr out =>
           rev ops = Prince.ops_of nc
           /\ Prince.is_nothing out = negb (Prince.shows_value nc)
       | inl _ => exists rest, rev ops ++ rest = Prince.ops_of nc
       end.
Proof.
  intros Hc. simpl in Hc.
  repeat (destruct Hc as [Hc|Hc];
          [ injection Hc as <- <-; crush_cell; added;
            first [ conjuncts; reflexivity | eexists; reflexivity ] |]).
  destruct Hc.
Qed.

(** Running the cells down to the first exception is replaying the cells
    that were reached. *)
Lemma run_all_replays (cs : list cell) (s : session) :
  exists n, fst (Prince.run_all cs s) = Prince.replay (take n cs) s.
Proof.
  revert s. induction cs as [|c cs IH]; intros s; simpl.
  - exists 0%nat. reflexivity.
  - destruct (c s) as [s1 [e|d]] eqn:Hc.
    + exists 1%nat. simpl. rewrite Hc. reflexivity.
    + destruct (IH s1) as [n Hn]. exists (S n).
      destruct (Prince.run_all cs s1) as [s2 ds]. simpl in *.
      rewrite Hc. exact Hn.
Qed.

(** A figure is shown by cell 15 and by no other cell. *)
Lemma only_cell15_draws (c : cell) (s : session) (ch : Chart) :
  In c [Prince.cell4 K; Prince.cell6 K; Prince.cell8 K; Prince.cell10 K;
        Prince.cell12 K; Prince.cell13 K; Prince.cell17 K; Prince.cell18 K;
        Prince.cell20 K; Prince.cell21 K] ->
  snd (c s) <> inr (Prince.Figure ch).
Proof.
  intros Hc. each_cell Hc; crush_cell; discriminate.
Qed.

End CellFacts.

(** ** The interpreter: names read and names bound *)

Section Scoping.

Context {V H E : Type} (L : Sem.library V H E).

Abbreviation M := (@Sem.M V H E).

Lemma bound_all (s : Sem.state V H) (names : list string) :
  forallb (Flow.bound s) names = true
  <-> forall x, In x names -> Flow.bound s x = true.
Proof. apply List.forallb_forall. Qed.

Lemma bound_same_env (s s' : Sem.state V H) (x : string) :
  Sem.env s' = Sem.env s -> Flow.bound s' x = Flow.bound s x.
Proof. unfold Flow.bound. intros ->. reflexivity. Qed.

Lemma bound_all_same_env (s s' : Sem.state V H) (names : list string) :
  Sem.env s' = Sem.env s ->
  forallb (Flow.bound s') names = forallb (Flow.bound s) names.
Proof.
  intros Henv. induction names as [|x names IH]; simpl; [reflexivity|].
  rewrite IH, (bound_same_env s s' x Henv). reflexivity.
Qed.

Lemma known_in (names : list string) (x : string) :
  Flow.known names x = true <-> In x names.
Proof.
  unfold Flow.known. rewrite existsb_exists. split.
  - intros (y & Hy & Heq). apply String.eqb_eq in Heq. subst. exact Hy.
  - intros Hx. exists x. split; [exact Hx | apply String.eqb_refl].
Qed.

Lemma known_not_in (names : list string) (x : string) :
  Flow.known names x = false <-> ~ In x names.
Proof.
  rewrite <- known_in. destruct (Flow.known names x); split; intros Hx;
    try discriminate; try reflexivity.
  exfalso. apply Hx. reflexivity.
Qed.

(** *** Expressions leave the namespace alone *)

Lemma keeps_env_ret {A} (a : A) : Flow.keeps_env (Sem.ret a : M A).
Proof. intros s. reflexivity. Qed.

Lemma keeps_env_bind {A B} (m : M A) (k : A -> M B) :
  Flow.keeps_env m -> (forall a, Flow.keeps_env (k a)) ->
  Flow.keeps_env (Sem.bind m k).
Proof.
  intros Hm Hk s. specialize (Hm s). unfold Sem.bind.
  destruct (m s) as [t [a s1|e s1|]]; simpl in *; [|exact Hm|exact I].
  specialize (Hk a s1). destruct (k a s1) as [t' [b s2|e s2|]]; simpl in *;
    congruence.
Qed.

Lemma keeps_env_ask {A} (r : Sem.request) (f : H -> E + (A * H)) :
  Flow.keeps_env (Sem.ask r f : M A).
Proof.
  intros s. unfold Sem.ask.
  destruct (f (Sem.heap s)) as [e|[a h]]; reflexivity.
Qed.

Lemma keeps_env_lookup (x : string) : Flow.keeps_env (Sem.lookup L x).
Proof. intros s. unfold Sem.lookup. destruct (Sem.env s !! x); reflexivity. Qed.

Lemma keeps_env_mapM {A B} (f : A -> M B) (l : list A) :
  Forall (fun x => Flow.keeps_env (f x)) l -> Flow.keeps_env (Sem.mapM f l).
Proof.
  induction 1 as [|x l Hx _ IH]; simpl.
  - apply keeps_env_ret.
  - monad. apply keeps_env_bind; [exact Hx|]. intros y.
    apply keeps_env_bind; [exact IH|]. intros ys. apply keeps_env_ret.
Qed.

Lemma keeps_env_eval (e : Py.expr) : Flow.keeps_env (Sem.eval L e).
Proof.
  induction e as [x|c|es IH|o a IH|f args kws IHf IHa IHk|c a b IHc IHa IHb]
    using Py.expr_induction; simpl; monad.
  - apply keeps_env_lookup.
  - apply keeps_env_ret.
  - apply keeps_env_bind; [apply keeps_env_mapM; exact IH|].
    intros vs. apply keeps_env_ret.
  - apply keeps_env_bind; [exact IH|]. intros ov. apply keeps_env_ask.
  - apply keeps_env_bind; [exact IHf|]. intros fv.
    apply keeps_env_bind; [apply keeps_env_mapM; exact IHa|]. intros avs.
    apply keeps_env_bind.
    + apply keeps_env_mapM. eapply Forall_impl; [exact IHk|].
      intros kw Hkw. simpl. apply keeps_env_bind; [exact Hkw|].
      intros v. apply keeps_env_ret.
    + intros kvs. apply keeps_env_ask.
  - apply keeps_env_bind; [exact IHc|]. intros cv.
    apply keeps_env_bind; [apply keeps_env_ask|].
    intros [|]; assumption.
Qed.

(** *** With its names bound, an expression raises no [NameError] *)

Lemma name_errors_app (t t' : list (Sem.event V E)) :
  Flow.name_errors (t ++ t') = Flow.name_errors t ++ Flow.name_errors t'.
Proof. unfold Flow.name_errors. apply omap_app. Qed.

Lemma scoped_ret {A} (a : A) : Flow.scoped [] (Sem.ret a : M A).
Proof. intros s _. reflexivity. Qed.

Lemma scoped_bind {A B} (n1 n2 : list string) (m : M A) (k : A -> M B) :
  Flow.scoped n1 m -> Flow.keeps_env m -> (forall a, Flow.scoped n2 (k a)) ->
  Flow.scoped (n1 ++ n2) (Sem.bind m k).
Proof.
  intros Hm Henv Hk s Hb. rewrite forallb_app in Hb.
  apply andb_true_iff in Hb as [Hb1 Hb2].
  specialize (Hm s Hb1). specialize (Henv s). unfold Sem.bind.
  destruct (m s) as [t [a s1|e s1|]]; simpl in *; try exact Hm.
  specialize (Hk a s1). rewrite (bound_all_same_env s s1 n2 Henv) in Hk.
  specialize (Hk Hb2). destruct (k a s1) as [t' r]. simpl in *.
  rewrite name_errors_app, Hm, Hk. reflexivity.
Qed.

Lemma scoped_ask {A} (r : Sem.request) (f : H -> E + (A * H)) :
  Flow.not_a_lookup r -> Flow.scoped [] (Sem.ask r f : M A).
Proof.
  intros Hr s _. unfold Sem.ask.
  destruct (f (Sem.heap s)) as [e|[a h]]; simpl; [|reflexivity].
  destruct r; simpl in *; [destruct Hr | reflexivity ..].
Qed.

Lemma scoped_lookup (x : string) : Flow.scoped [x] (Sem.lookup L x).
Proof.
  intros s Hb. simpl in Hb. apply andb_true_iff in Hb as [Hb _].
  unfold Flow.bound in Hb. unfold Sem.lookup.
  destruct (Sem.env s !! x); [reflexivity | discriminate].
Qed.

Lemma scoped_weaken {A} (n n' : list string) (m : M A) :
  (forall x, In x n -> In x n') -> Flow.scoped n m -> Flow.scoped n' m.
Proof.
  intros Hsub Hm s Hb. apply Hm. apply bound_all. intros x Hx.
  apply (proj1 (bound_all s n') Hb). apply Hsub, Hx.
Qed.

Lemma scoped_mapM {A B} (names : A -> list string) (f : A -> M B) (l : list A) :
  Forall (fun x => Flow.scoped (names x) (f x) /\ Flow.keeps_env (f x)) l ->
  Flow.scoped (flat_map names l) (Sem.mapM f l).
Proof.
  induction 1 as [|x l [Hx Hxe] Hl IH]; simpl.
  - apply scoped_ret.
  - monad. apply scoped_bind; [exact Hx | exact Hxe |]. intros y.
    rewrite <- (app_nil_r (flat_map names l)).
    apply scoped_bind; [exact IH | | intros ys; apply scoped_ret].
    apply keeps_env_mapM. eapply Forall_impl; [exact Hl|]. intros z [_ Hz]. exact Hz.
Qed.

Lemma scoped_eval (e : Py.expr) : Flow.scoped (Flow.names_expr e) (Sem.eval L e).
Proof.
  induction e as [x|c|es IH|o a IH|f args kws IHf IHa IHk|c a b IHc IHa IHb]
    using Py.expr_induction; simpl; monad.
  - apply scoped_lookup.
  - apply scoped_ret.
  - rewrite <- (app_nil_r (flat_map _ es)).
    apply scoped_bind; [| |intros vs; apply scoped_ret].
    + apply scoped_mapM. eapply Forall_impl; [exact IH|].
      intros x Hx. split; [exact Hx | apply keeps_env_eval].
    + apply keeps_env_mapM. apply Forall_forall. intros x _. apply keeps_env_eval.
  - rewrite <- (app_nil_r (Flow.names_expr o)).
    apply scoped_bind; [exact IH | apply keeps_env_eval |].
    intros ov. apply scoped_ask. exact I.
  - apply scoped_bind; [exact IHf | apply keeps_env_eval |]. intros fv.
    apply scoped_bind.
    { apply scoped_mapM. eapply Forall_impl; [exact IHa|].
      intros x Hx. split; [exact Hx | apply keeps_env_eval]. }
    { apply keeps_env_mapM. apply Forall_forall. intros x _. apply keeps_env_eval. }
    intros avs. rewrite <- (app_nil_r (flat_map _ kws)).
    apply scoped_bind.
    { apply (scoped_mapM (fun kw => Flow.names_expr (snd kw))).
      eapply Forall_impl; [exact IHk|]. intros kw Hkw. simpl. split.
      - rewrite <- (app_nil_r (Flow.names_expr _)).
        apply scoped_bind; [exact Hkw | apply keeps_env_eval |].
        intros v. apply scoped_ret.
      - apply keeps_env_bind; [apply keeps_env_eval|]. intros v. apply keeps_env_ret. }
    { apply keeps_env_mapM. apply Forall_forall. intros kw _.
      apply keeps_env_bind; [apply keeps_env_eval|]. intros v. apply keeps_env_ret. }
    intros kvs. apply scoped_ask. exact I.
  - apply scoped_bind; [exact IHc | apply keeps_env_eval |]. intros cv.
    rewrite <- (app_nil_l (_ ++ _)).
    apply scoped_bind; [apply scoped_ask; exact I | apply keeps_env_ask |].
    intros [|].
    + eapply scoped_weaken; [|exact IHa]. intros x Hx. apply in_or_app. left. exact Hx.
    + eapply scoped_weaken; [|exact IHb]. intros x Hx. apply in_or_app. right. exact Hx.
Qed.

(** *** An expression completes only with its names bound *)

Lemma requires_nothing {A} (m : M A) : Flow.requires [] m.
Proof. intros s a s' _. reflexivity. Qed.

Lemma requires_bind {A B} (n1 n2 : list string) (m : M A) (k : A -> M B) :
  Flow.requires n1 m -> Flow.keeps_env m -> (forall a, Flow.requires n2 (k a)) ->
  Flow.requires (n1 ++ n2) (Sem.bind m k).
Proof.
  intros Hm Henv Hk s b s' Hdone. unfold Sem.bind in Hdone.
  specialize (Hm s). specialize (Henv s).
  destruct (m s) as [t [a s1|e s1|]]; simpl in *; try discriminate.
  specialize (Hk a s1 b s').
  destruct (k a s1) as [t' r]. simpl in *.
  rewrite forallb_app, (Hm a s1 eq_refl), <- (bound_all_same_env s s1 n2 Henv).
  rewrite (Hk Hdone). reflexivity.
Qed.

Lemma requires_lookup (x : string) : Flow.requires [x] (Sem.lookup L x).
Proof.
  intros s a s' Hdone. unfold Sem.lookup in Hdone. simpl. unfold Flow.bound.
  destruct (Sem.env s !! x); [reflexivity | discriminate].
Qed.

Lemma requires_mapM {A B} (names : A -> list string) (f : A -> M B) (l : list A) :
  Forall (fun x => Flow.requires (names x) (f x) /\ Flow.keeps_env (f x)) l ->
  Flow.requires (flat_map names l) (Sem.mapM f l).
Proof.
  induction 1 as [|x l [Hx Hxe] Hl IH]; simpl.
  - apply requires_nothing.
  - monad. apply requires_bind; [exact Hx | exact Hxe |]. intros y.
    rewrite <- (app_nil_r (flat_map names l)).
    apply requires_bind; [exact IH | | intros ys; apply requires_nothing].
    apply keeps_env_mapM. eapply Forall_impl; [exact Hl|]. intros z [_ Hz]. exact Hz.
Qed.

Lemma requires_eval (e : Py.expr) :
  Py.branch_free e = true -> Flow.requires (Flow.names_expr e) (Sem.eval L e).
Proof.
  induction e as [x|c|es IH|o a IH|f args kws IHf IHa IHk|c a b IHc IHa IHb]
    using Py.expr_induction; simpl; intros Hbf; monad.
  - apply requires_lookup.
  - apply requires_nothing.
  - rewrite <- (app_nil_r (flat_map _ es)).
    apply requires_bind; [| |intros vs; apply requires_nothing].
    + apply requires_mapM. rewrite forallb_forall in Hbf.
      rewrite Forall_forall in IH |- *. intros x Hx. split.
      * apply IH; [exact Hx|]. apply Hbf, list_elem_of_In, Hx.
      * apply keeps_env_eval.
    + apply keeps_env_mapM. apply Forall_forall. intros x _. apply keeps_env_eval.
  - rewrite <- (app_nil_r (Flow.names_expr o)).
    apply requires_bind; [apply IH; exact Hbf | apply keeps_env_eval |].
    intros ov. apply requires_nothing.
  - apply andb_true_iff in Hbf as [Hbf Hk].
    apply andb_true_iff in Hbf as [Hf Ha].
    apply requires_bind; [apply IHf; exact Hf | apply keeps_env_eval |]. intros fv.
    apply requires_bind.
    { apply requires_mapM. rewrite forallb_forall in Ha.
      rewrite Forall_forall in IHa |- *. intros x Hx. split.
      - apply IHa; [exact Hx|]. apply Ha, list_elem_of_In, Hx.
      - apply keeps_env_eval. }
    { apply keeps_env_mapM. apply Forall_forall. intros x _. apply keeps_env_eval. }
    intros avs. rewrite <- (app_nil_r (flat_map _ kws)).
    apply requires_bind.
    { apply (requires_mapM (fun kw => Flow.names_expr (snd kw))).
      rewrite forallb_forall in Hk.
      rewrite Forall_forall in IHk |- *. intros kw Hkw. split.
      - rewrite <- (app_nil_r (Flow.names_expr _)).
        apply requires_bind; [| apply keeps_env_eval | intros v; apply requires_nothing].
        apply IHk; [exact Hkw|]. apply Hk, list_elem_of_In, Hkw.
      - apply keeps_env_bind; [apply keeps_env_eval|]. intros v. apply keeps_env_ret. }
    { apply keeps_env_mapM. apply Forall_forall. intros kw _.
      apply keeps_env_bind; [apply keeps_env_eval|]. intros v. apply keeps_env_ret. }
    intros kvs. apply requires_nothing.
  - discriminate.
Qed.

(** *** Statements *)

Lemma scoped_stmt (n : nat) (s : Py.stmt) :
  Py.straight_line s = true -> Flow.scoped (Flow.reads s) (Sem.exec L (S n) s).
Proof.
  destruct s as [m a|[x|o a] e|e|c b o|x it b o|c b o|b hs o f|ctx x b];
    simpl; intros Hs; try discriminate; unfold Flow.reads; simpl; monad.
  - rewrite <- (app_nil_r []).
    apply scoped_bind; [apply scoped_ask; exact I | apply keeps_env_ask |].
    intros v. intros s _. reflexivity.
  - apply scoped_bind; [apply scoped_eval | apply keeps_env_eval |].
    intros v. intros s _. reflexivity.
  - apply scoped_bind; [apply scoped_eval | apply keeps_env_eval |]. intros v.
    apply scoped_bind; [apply scoped_eval | apply keeps_env_eval |]. intros ov.
    apply scoped_ask. exact I.
  - apply scoped_bind; [apply scoped_eval | apply keeps_env_eval |].
    intros v. apply scoped_ret.
Qed.

Lemma requires_stmt (n : nat) (s : Py.stmt) :
  Py.straight_line s = true -> Flow.requires (Flow.reads s) (Sem.exec L (S n) s).
Proof.
  destruct s as [m a|[x|o a] e|e|c b o|x it b o|c b o|b hs o f|ctx x b];
    simpl; intros Hs; try discriminate; unfold Flow.reads; simpl; monad.
  - apply requires_nothing.
  - apply requires_bind; [apply requires_eval; exact Hs | apply keeps_env_eval |].
    intros v. apply requires_nothing.
  - apply andb_true_iff in Hs as [Ho He].
    apply requires_bind; [apply requires_eval; exact He | apply keeps_env_eval |].
    intros v.
    apply requires_bind; [apply requires_eval; exact Ho | apply keeps_env_eval |].
    intros ov. apply requires_nothing.
  - apply requires_bind; [apply requires_eval; exact Hs | apply keeps_env_eval |].
    intros v. apply requires_nothing.
Qed.

(** What a simple statement does to the namespace: nothing when it raises;
    when it completes, the name it binds is bound and every other name is as
    before. *)
Lemma stmt_env (n : nat) (s : Py.stmt) (st : Sem.state V H) :
  Py.straight_line s = true ->
  match snd (Sem.exec L (S n) s st) with
  | Sem.Done _ st' =>
      (forall y, ~ In y (Flow.binds s) -> Sem.env st' !! y = Sem.env st !! y)
      /\ (forall y, In y (Flow.binds s) -> Flow.bound st' y = true)
  | Sem.Fail _ st' => Sem.env st' = Sem.env st
  | Sem.Timeout => False
  end.
Proof.
  assert (Hassign : forall (m : M V) (x : string),
            Flow.keeps_env m ->
            (forall st0, snd (m st0) <> Sem.Timeout) ->
            match snd (Sem.bind m (fun v => Sem.assign x v) st) with
            | Sem.Done _ st' =>
                (forall y, ~ In y [x] -> Sem.env st' !! y = Sem.env st !! y)
                /\ (forall y, In y [x] -> Flow.bound st' y = true)
            | Sem.Fail _ st' => Sem.env st' = Sem.env st
            | Sem.Timeout => False
            end).
  { intros m x Hm Hterm. specialize (Hm st). specialize (Hterm st).
    unfold Sem.bind, Sem.assign.
    destruct (m st) as [t [v s1|e s1|]]; simpl in *; [|exact Hm|congruence].
    split.
    - intros y Hy. rewrite Hm. apply lookup_insert_ne. intros ->. apply Hy. left. reflexivity.
    - intros y [<-|[]]. unfold Flow.bound. simpl. rewrite lookup_insert_eq. reflexivity. }
  assert (Hterm : forall e st0, Py.branch_free e = true ->
            snd (Sem.eval L e st0) <> Sem.Timeout).
  { intros e st0 Hbf Ht. pose proof (follows_eval L e Hbf st0) as Hp.
    unfold Sem.on_plan in Hp. rewrite Ht in Hp. exact Hp. }
  destruct s as [m a|[x|o a] e|e|c b o|x it b o|c b o|b hs o f|ctx x b];
    simpl; intros Hs; try discriminate; monad.
  - apply (Hassign (Sem.ask (Sem.RImport m) (Sem.import_module L m))).
    + apply keeps_env_ask.
    + intros st0. unfold Sem.ask.
      destruct (Sem.import_module L m (Sem.heap st0)) as [e|[v h]]; discriminate.
  - apply (Hassign (Sem.eval L e)); [apply keeps_env_eval|].
    intros st0. apply Hterm, Hs.
  - apply andb_true_iff in Hs as [Ho He].
    pose proof (keeps_env_bind (Sem.eval L e)
                  (fun v => Sem.bind (Sem.eval L o)
                              (fun ov => Sem.ask (Sem.RSetattr ov a v)
                                           (Sem.setattr L ov a v)))
                  (keeps_env_eval e)
                  (fun v => keeps_env_bind _ _ (keeps_env_eval o)
                              (fun ov => keeps_env_ask _ _)) st) as Henv.
    pose proof (follows_stmt L n (Py.SAssign (Py.TAttribute o a) e)) as Hplan.
    simpl in Hplan. rewrite Ho, He in Hplan. specialize (Hplan eq_refl st).
    unfold Sem.on_plan in Hplan. simpl in Hplan. monad.
    destruct (snd (Sem.bind (Sem.eval L e) _ st)) as [u st'|e' st'|];
      simpl in *; [|exact Henv|exact Hplan].
    split; [intros y _; rewrite Henv; reflexivity | intros y []].
  - pose proof (keeps_env_bind (Sem.eval L e) (fun _ => Sem.ret tt)
                  (keeps_env_eval e) (fun _ => keeps_env_ret tt) st) as Henv.
    pose proof (follows_stmt L n (Py.SExpr e) Hs st) as Hplan.
    unfold Sem.on_plan in Hplan. simpl in Hplan. monad.
    destruct (snd (Sem.bind (Sem.eval L e) _ st)) as [u st'|e' st'|];
      simpl in *; [|exact Henv|exact Hplan].
    split; [intros y _; rewrite Henv; reflexivity | intros y []].
Qed.

(** *** Blocks *)

Lemma free_names_unknown (ss : list Py.stmt) :
  forall b x, In x (Flow.free_names b ss) -> ~ In x b.
Proof.
  induction ss as [|s ss IH]; simpl; intros b x Hx; [destruct Hx|].
  apply in_app_or in Hx as [Hx|Hx].
  - apply filter_In in Hx as [_ Hx]. apply negb_true_iff in Hx.
    apply known_not_in, Hx.
  - intros Hb. apply (IH _ _ Hx). apply in_or_app. right. exact Hb.
Qed.

Lemma bound_grows_stmt (n : nat) (s : Py.stmt) (st : Sem.state V H) :
  Py.straight_line s = true ->
  match snd (Sem.exec L (S n) s st) with
  | Sem.Done _ st' | Sem.Fail _ st' =>
      forall y, Flow.bound st y = true -> Flow.bound st' y = true
  | Sem.Timeout => False
  end.
Proof.
  intros Hs. pose proof (stmt_env n s st Hs) as Henv.
  destruct (snd (Sem.exec L (S n) s st)) as [u st'|e st'|]; [| |exact Henv].
  - destruct Henv as [Hout Hin]. intros y Hy.
    destruct (in_dec string_dec y (Flow.binds s)) as [Hb|Hb].
    + apply Hin, Hb.
    + unfold Flow.bound in *. rewrite (Hout y Hb). exact Hy.
  - intros y Hy. rewrite (bound_same_env st st' y Henv). exact Hy.
Qed.

Lemma run_cell_cons (n : nat) (s : Py.stmt) (ss : list Py.stmt) :
  Sem.run_cell L n (s :: ss)
  = Sem.bind (Sem.exec L n s) (fun _ => Sem.run_cell L n ss).
Proof. reflexivity. Qed.

(** What a block of simple statements does to the namespace: it always
    ends; names it does not assign keep their value, bound names stay bound,
    and when it completes, the names it assigns are bound. *)
Lemma block_env (n : nat) (ss : list Py.stmt) :
  forallb Py.straight_line ss = true ->
  forall st : Sem.state V H,
    match snd (Sem.run_cell L (S n) ss st) with
    | Sem.Done _ st' =>
        (forall y, ~ In y (Flow.assigned ss) -> Sem.env st' !! y = Sem.env st !! y)
        /\ (forall y, Flow.bound st y = true -> Flow.bound st' y = true)
        /\ (forall y, In y (Flow.assigned ss) -> Flow.bound st' y = true)
    | Sem.Fail _ st' =>
        (forall y, ~ In y (Flow.assigned ss) -> Sem.env st' !! y = Sem.env st !! y)
        /\ (forall y, Flow.bound st y = true -> Flow.bound st' y = true)
    | Sem.Timeout => False
    end.
Proof.
  induction ss as [|s ss IH]; intros Hss st.
  - simpl. repeat split; [intros y [] ..]; tauto.
  - simpl in Hss. apply andb_true_iff in Hss as [Hs Hss].
    rewrite run_cell_cons. unfold Sem.bind.
    pose proof (stmt_env n s st Hs) as Henv.
    pose proof (bound_grows_stmt n s st Hs) as Hgrow.
    destruct (Sem.exec L (S n) s st) as [t [u st1|e st1|]]; simpl in *;
      [| |exact Henv].
    + specialize (IH Hss st1). destruct Henv as [Hout Hin].
      destruct (Sem.run_cell L (S n) ss st1) as [t' [u' st'|e st'|]];
        simpl in *; [| |exact IH].
      * destruct IH as (IHout & IHgrow & IHin). unfold Flow.assigned. simpl.
        repeat split.
        -- intros y Hy. rewrite IHout, Hout; [reflexivity| |];
             intros Hb; apply Hy, in_or_app; [left|right]; exact Hb.
        -- intros y Hy. apply IHgrow, Hgrow, Hy.
        -- intros y Hy. apply in_app_or in Hy as [Hy|Hy].
           ++ apply IHgrow, Hin, Hy.
           ++ apply IHin, Hy.
      * destruct IH as (IHout & IHgrow). unfold Flow.assigned. simpl. split.
        -- intros y Hy. rewrite IHout, Hout; [reflexivity| |];
             intros Hb; apply Hy, in_or_app; [left|right]; exact Hb.
        -- intros y Hy. apply IHgrow, Hgrow, Hy.
    + split.
      * intros y _. rewrite Henv. reflexivity.
      * exact Hgrow.
Qed.

(** With the names a block needs bound (and those of [b]), no lookup of the
    block fails. *)
Lemma scoped_block (n : nat) (ss : list Py.stmt) :
  forallb Py.straight_line ss = true ->
  forall (b : list string) (st : Sem.state V H),
    forallb (Flow.bound st) b = true ->
    forallb (Flow.bound st) (Flow.free_names b ss) = true ->
    Flow.name_errors (fst (Sem.run_cell L (S n) ss st)) = [].
Proof.
  induction ss as [|s ss IH]; intros Hss b st Hb Hfree; [reflexivity|].
  simpl in Hss. apply andb_true_iff in Hss as [Hs Hss].
  simpl in Hfree. rewrite forallb_app in Hfree.
  apply andb_true_iff in Hfree as [Hhere Hlater].
  rewrite bound_all in Hb, Hhere, Hlater.
  assert (Hreads : forallb (Flow.bound st) (Flow.reads s) = true).
  { apply bound_all. intros x Hx.
    destruct (Flow.known b x) eqn:Hk.
    - apply Hb, known_in, Hk.
    - apply Hhere, filter_In. split; [exact Hx|]. rewrite Hk. reflexivity. }
  pose proof (scoped_stmt n s Hs st Hreads) as Hfirst.
  pose proof (stmt_env n s st Hs) as Henv.
  pose proof (bound_grows_stmt n s st Hs) as Hgrow.
  rewrite run_cell_cons. unfold Sem.bind.
  destruct (Sem.exec L (S n) s st) as [t [u st1|e st1|]]; simpl in *;
    [|exact Hfirst|exact Hfirst].
  specialize (IH Hss (Flow.binds s ++ b) st1).
  destruct (Sem.run_cell L (S n) ss st1) as [t' r]. simpl in *.
  rewrite name_errors_app, Hfirst. simpl. apply IH.
  - apply bound_all. intros x Hx. apply in_app_or in Hx as [Hx|Hx].
    + apply (proj2 Henv), Hx.
    + apply Hgrow, Hb, Hx.
  - apply bound_all. intros x Hx. apply Hgrow, Hlater, Hx.
Qed.

(** A block completes only when the names it needs were bound. *)
Lemma requires_block (n : nat) (ss : list Py.stmt) :
  forallb Py.straight_line ss = true ->
  forall (b : list string) (st : Sem.state V H) u st',
    snd (Sem.run_cell L (S n) ss st) = Sem.Done u st' ->
    forallb (Flow.bound st) (Flow.free_names b ss) = true.
Proof.
  induction ss as [|s ss IH]; intros Hss b st u st' Hdone; [reflexivity|].
  simpl in Hss. apply andb_true_iff in Hss as [Hs Hss].
  pose proof (requires_stmt n s Hs st) as Hreq.
  pose proof (stmt_env n s st Hs) as Henv.
  rewrite run_cell_cons in Hdone. unfold Sem.bind in Hdone.
  destruct (Sem.exec L (S n) s st) as [t [u1 st1|e st1|]]; simpl in *;
    try discriminate.
  specialize (Hreq u1 st1 eq_refl). rewrite bound_all in Hreq.
  specialize (IH Hss (Flow.binds s ++ b) st1).
  destruct (Sem.run_cell L (S n) ss st1) as [t' r]. simpl in *. subst r.
  specialize (IH u st' eq_refl). rewrite bound_all in IH.
  rewrite forallb_app. apply andb_true_iff. split; apply bound_all; intros x Hx.
  - apply filter_In in Hx as [Hx _]. apply Hreq, Hx.
  - pose proof (free_names_unknown _ _ _ Hx) as Hnew.
    specialize (IH x Hx). unfold Flow.bound in *.
    rewrite (proj1 Henv x) in IH; [exact IH|].
    intros Hb. apply Hnew, in_or_app. left. exact Hb.
Qed.

End Scoping.

(** ** The interpreter: what a run of a cell hands to the library *)

Ltac sem_unfold :=
  unfold mbind, mret, Sem.M_bind, Sem.M_ret, Sem.bind, Sem.lookup, Sem.ask,
    Sem.assign, Sem.ret in *.

Ltac sem_known :=
  repeat match goal with
         | H : ?x = _ |- context [?x] => rewrite H
         end.

Ltac sem_env :=
  repeat first [ rewrite lookup_insert_eq
               | rewrite lookup_insert_ne by discriminate ].

(** Run a cell as far as the answers of the library are known. *)
Ltac sem_run :=
  unfold Prince.url, Prince.labels, Flow.strings, Flow.keyword_values,
    Prince.primary_keywords, Prince.secondary_keywords in *;
  cbn in *; sem_unfold; cbn; repeat (progress (sem_env; sem_known; cbn)).

Ltac is_answered := unfold Flow.answered; reflexivity.

Section CellRuns.

Context {V H E : Type} (L : Sem.library V H E).

Lemma asked_in_shape (t : list (Sem.event V E)) (ev : Sem.event V E)
    (r : @Sem.request V) :
  In ev t -> Flow.asked r ev -> In (Sem.kind_of r) (Sem.shape t).
Proof.
  intros Hin Hr. induction t as [|ev' t IH]; [destruct Hin|].
  change (ev' :: t) with ([ev'] ++ t). rewrite shape_app. apply in_or_app.
  destruct Hin as [->|Hin]; [left | right; apply IH, Hin].
  destruct Hr as [->|[e ->]]; left; reflexivity.
Qed.

(** Cell 4: the columns are set on the object that [read_csv] returned, to
    the five labels, and [dataset] is bound to that object. *)
Lemma cell4_run (n : nat) (st : Sem.state V H) (pdv rc d : V) (h1 h2 h3 : H) :
  Sem.import_module L "pandas" (Sem.heap st) = inr (pdv, h1) ->
  Sem.getattr L pdv "read_csv" h1 = inr (rc, h2) ->
  Sem.call L rc [Sem.of_constant L (Py.CStr Prince.url)] [] h2 = inr (d, h3) ->
  exists ev rest,
    fst (Sem.run_cell L (S n) (Notebook.body_of Notebook.cell4) st)
    = [ Sem.Returned (Sem.RImport "pandas"); Sem.Returned (Sem.RLookup "pd");
        Sem.Returned (Sem.RGetattr pdv "read_csv");
        Sem.Returned (Sem.RCall rc [Sem.of_constant L (Py.CStr Prince.url)] []);
        Sem.Returned (Sem.RLookup "dataset"); ev ] ++ rest
    /\ Flow.answered (Sem.RSetattr d "columns" (Flow.strings L Prince.labels))
               (Sem.setattr L d "columns" (Flow.strings L Prince.labels) h3) ev
    /\ match Flow.final (snd (Sem.run_cell L (S n) (Notebook.body_of Notebook.cell4) st)) with
       | Some st' => Sem.env st' !! "dataset" = Some d
       | None => False
       end.
Proof.
  intros Hi Hg Hc. sem_run.
  repeat (cell_step; cbn; sem_env).
  all: eexists _, _; (split; [reflexivity|]); split; [is_answered|].
  all: cbn; sem_env; reflexivity.
Qed.

(** Cell 6: [fit] is taken from the object that [prince.MCA] returned for
    the six keywords, and is handed the object bound to [dataset]. *)
Lemma cell6_run (n : nat) (st : Sem.state V H) (d pv ctor est f : V)
    (h1 h2 h3 h4 : H) :
  Sem.env st !! "dataset" = Some d ->
  Sem.import_module L "prince" (Sem.heap st) = inr (pv, h1) ->
  Sem.getattr L pv "MCA" h1 = inr (ctor, h2) ->
  Sem.call L ctor [] (Flow.keyword_values L Prince.primary_keywords) h2
  = inr (est, h3) ->
  Sem.getattr L est "fit" h3 = inr (f, h4) ->
  exists ev,
    fst (Sem.run_cell L (S n) (Notebook.body_of Notebook.cell6) st)
    = [ Sem.Returned (Sem.RImport "prince"); Sem.Returned (Sem.RLookup "prince");
        Sem.Returned (Sem.RGetattr pv "MCA");
        Sem.Returned (Sem.RCall ctor [] (Flow.keyword_values L Prince.primary_keywords));
        Sem.Returned (Sem.RLookup "mca"); Sem.Returned (Sem.RGetattr est "fit");
        Sem.Returned (Sem.RLookup "dataset"); ev ]
    /\ Flow.answered (Sem.RCall f [d] []) (Sem.call L f [d] [] h4) ev.
Proof.
  intros Hd Hi Hg Hc Hf. sem_run.
  repeat (cell_step; cbn; sem_env).
  all: eexists; (split; [reflexivity|]); is_answered.
Qed.

(** Cell 8: [get_dummies] is handed the object bound to [dataset]; what it
    returns is bound to [one_hot] and handed to the [fit] of the object that
    [prince.MCA(one_hot=False)] returned. *)
Lemma cell8_run (n : nat) (st : Sem.state V H) (pdv d pv g oh ctor est f : V)
    (h1 h2 h3 h4 h5 : H) :
  Sem.env st !! "pd" = Some pdv -> Sem.env st !! "dataset" = Some d ->
  Sem.env st !! "prince" = Some pv ->
  Sem.getattr L pdv "get_dummies" (Sem.heap st) = inr (g, h1) ->
  Sem.call L g [d] [] h1 = inr (oh, h2) ->
  Sem.getattr L pv "MCA" h2 = inr (ctor, h3) ->
  Sem.call L ctor [] (Flow.keyword_values L Prince.secondary_keywords) h3
  = inr (est, h4) ->
  Sem.getattr L est "fit" h4 = inr (f, h5) ->
  exists ev,
    fst (Sem.run_cell L (S n) (Notebook.body_of Notebook.cell8) st)
    = [ Sem.Returned (Sem.RLookup "pd"); Sem.Returned (Sem.RGetattr pdv "get_dummies");
        Sem.Returned (Sem.RLookup "dataset"); Sem.Returned (Sem.RCall g [d] []);
        Sem.Returned (Sem.RLookup "prince"); Sem.Returned (Sem.RGetattr pv "MCA");
        Sem.Returned (Sem.RCall ctor [] (Flow.keyword_values L Prince.secondary_keywords));
        Sem.Returned (Sem.RLookup "mca_no_one_hot");
        Sem.Returned (Sem.RGetattr est "fit");
        Sem.Returned (Sem.RLookup "one_hot"); ev ]
    /\ Flow.answered (Sem.RCall f [oh] []) (Sem.call L f [oh] [] h5) ev
    /\ match Flow.final (snd (Sem.run_cell L (S n) (Notebook.body_of Notebook.cell8) st)) with
       | Some st' => Sem.env st' !! "one_hot" = Some oh
       | None => False
       end.
Proof.
  intros Hpd Hd Hpr Hg Hc Hm Hk Hf. sem_run.
  repeat (cell_step; cbn; sem_env).
  all: eexists; (split; [reflexivity|]); split; [is_answered|].
  all: cbn; sem_env; reflexivity.
Qed.

(** Cells 12, 13, 15, 20 and 21: the method is taken from the object bound
    to [mca] and is handed the object bound to [dataset]. *)
Lemma retrieval_run (c : Notebook.cell) (a : string)
    (kws : list (string * Py.constant)) (n : nat) (st : Sem.state V H)
    (m d f : V) (h1 : H) :
  In (c, a, kws) Flow.dataset_calls ->
  Sem.env st !! "mca" = Some m -> Sem.env st !! "dataset" = Some d ->
  Sem.getattr L m a (Sem.heap st) = inr (f, h1) ->
  exists ev rest,
    fst (Sem.run_cell L (S n) (Notebook.body_of c) st)
    = [ Sem.Returned (Sem.RLookup "mca"); Sem.Returned (Sem.RGetattr m a);
        Sem.Returned (Sem.RLookup "dataset"); ev ] ++ rest
    /\ Flow.answered (Sem.RCall f [d] (Flow.keyword_values L kws))
               (Sem.call L f [d] (Flow.keyword_values L kws) h1) ev.
Proof.
  intros Hc Hm Hd Hf. vm_compute in Hc.
  repeat (destruct Hc as [Hc|Hc]; [injection Hc as <- <- <-|]); try destruct Hc.
  all: sem_run.
  all: repeat (cell_step; cbn).
  all: eexists _, _; (split; [reflexivity|]); is_answered.
Qed.

(** Cell 15 is that one call and nothing else. *)
Lemma cell15_run (n : nat) (st : Sem.state V H) (m d f : V) (h1 : H) :
  Sem.env st !! "mca" = Some m -> Sem.env st !! "dataset" = Some d ->
  Sem.getattr L m "plot" (Sem.heap st) = inr (f, h1) ->
  let kws := [ ("x_component", Sem.of_constant L (Py.CInt 0));
               ("y_component", Sem.of_constant L (Py.CInt 1)) ] in
  let before := [ Sem.Returned (Sem.RLookup "mca");
                  Sem.Returned (Sem.RGetattr m "plot");
                  Sem.Returned (Sem.RLookup "dataset") ] in
  Sem.run_cell L (S n) (Notebook.body_of Notebook.cell15) st
  = match Sem.call L f [d] kws h1 with
    | inr (_, h2) =>
        (before ++ [Sem.Returned (Sem.RCall f [d] kws)],
         Sem.Done tt (Sem.State (Sem.env st) h2))
    | inl e =>
        (before ++ [Sem.Raised (Sem.RCall f [d] kws) e],
         Sem.Fail e (Sem.State (Sem.env st) h1))
    end.
Proof.
  intros Hm Hd Hf kws before. subst kws before. sem_run.
  repeat (cell_step; cbn; sem_env); reflexivity.
Qed.

(** After cell 4 no cell stores into an attribute or rebinds [dataset], and
    after cell 8 none rebinds [one_hot]. *)
Lemma later_cells_leave_tables (c : Notebook.cell) (n : nat) (st : Sem.state V H) :
  In c (drop 1 Notebook.code_cells) ->
  (forall ev o a v,
      In ev (fst (Sem.run_cell L (S n) (Notebook.body_of c) st)) ->
      ~ Flow.asked (Sem.RSetattr o a v) ev)
  /\ match Flow.final (snd (Sem.run_cell L (S n) (Notebook.body_of c) st)) with
     | Some st' =>
         Sem.env st' !! "dataset" = Sem.env st !! "dataset"
         /\ (In c (drop 3 Notebook.code_cells) ->
             Sem.env st' !! "one_hot" = Sem.env st !! "one_hot")
     | None => False
     end.
Proof.
  intros Hc.
  assert (Hsimple : forallb Py.straight_line (Notebook.body_of c) = true)
    by (each_cell Hc; reflexivity).
  assert (Hstores : existsb Flow.stores (flat_map Py.plan_stmt (Notebook.body_of c))
                    = false) by (each_cell Hc; reflexivity).
  assert (Hdataset : ~ In "dataset" (Flow.assigned (Notebook.body_of c)))
    by (apply known_not_in; each_cell Hc; reflexivity).
  assert (Hone_hot : In c (drop 3 Notebook.code_cells) ->
                     ~ In "one_hot" (Flow.assigned (Notebook.body_of c))).
  { intros Hc'. apply known_not_in. each_cell Hc'; reflexivity. }
  split.
  - intros ev o a v Hin Hev.
    pose proof (asked_in_shape _ _ _ Hin Hev) as Hk.
    apply (shape_within _ _ (follows_run_cell L n _ Hsimple)) in Hk.
    assert (Hex : existsb Flow.stores (flat_map Py.plan_stmt (Notebook.body_of c))
                  = true).
    { apply existsb_exists. eexists. split; [exact Hk | reflexivity]. }
    rewrite Hstores in Hex. discriminate.
  - pose proof (block_env L n _ Hsimple st) as Henv.
    destruct (snd (Sem.run_cell L (S n) (Notebook.body_of c) st)) as [u st'|e st'|];
      simpl; [| |exact Henv].
    + destruct Henv as (Hout & _). split; [apply Hout, Hdataset|].
      intros Hc'. apply Hout, Hone_hot, Hc'.
    + destruct Henv as (Hout & _). split; [apply Hout, Hdataset|].
      intros Hc'. apply Hout, Hone_hot, Hc'.
Qed.

(** In a run of the whole notebook the attribute [plot] is asked for once
    when the run completes, and at most once when it raises. *)
Lemma one_plot_request (n : nat) (st : Sem.state V H) :
  match snd (Sem.run_cell L (S n) Notebook.program st) with
  | Sem.Done _ _ =>
      Flow.plot_requests (Sem.shape (fst (Sem.run_cell L (S n) Notebook.program st)))
      = [Py.KGetattr "plot"]
  | Sem.Fail _ _ =>
      (length (Flow.plot_requests
                 (Sem.shape (fst (Sem.run_cell L (S n) Notebook.program st)))) <= 1)%nat
  | Sem.Timeout => False
  end.
Proof.
  pose proof (follows_run_cell L n Notebook.program eq_refl st) as Hplan.
  unfold Sem.on_plan in Hplan.
  destruct (snd (Sem.run_cell L (S n) Notebook.program st)) as [u st'|e st'|];
    [| |exact Hplan].
  - destruct Hplan as [-> _]. vm_compute. reflexivity.
  - destruct Hplan as [rest Hplan].
    apply (f_equal (fun p => length (Flow.plot_requests p))) in Hplan.
    unfold Flow.plot_requests in Hplan at 1. rewrite List.filter_app, length_app in Hplan.
    change (length (Flow.plot_requests (flat_map Py.plan_stmt Notebook.program)))
      with 1%nat in Hplan.
    unfold Flow.plot_requests. lia.
Qed.

End CellRuns.

(** ** The syntax trees against the text of the cells *)


(** ** The claims *)



(** C2, as the specification states it: each of [fit], [transform] and
    [plot] is invoked on an MCA instance by some code cell.  To invoke a
    method a cell has to name it, a call has to go to it, or at least a run
    has to ask some object for the attribute.  For [transform] none of this
    happens: the word is neither an identifier nor a string of any cell, no
    call goes to it on whatever receiver, and no run, over any library,
    asks for it. *)
Lemma C2_transform_never_called :
  ~ Forall (fun m =>
              Notebook.mentioned m = true
              \/ Notebook.called m = true
              \/ exists (V H E : Type) (L : Sem.library V H E) (n : nat)
                        (st : Sem.state V H),
                   In (Py.KGetattr m)
                      (Sem.shape (fst (Sem.run_cell L (S n) Notebook.program st))))
      Notebook.spec_methods.
Proof.
  intros Hall. apply Forall_cons in Hall as [_ Hall].
  apply Forall_cons in Hall as [[Hm|[Hc|Hrun]] _].
  - vm_compute in Hm. discriminate.
  - vm_compute in Hc. discriminate.
  - destruct Hrun as (V & H & E & L & n & st & Hin).
    apply (shape_within _ _ (follows_run_cell L n Notebook.program eq_refl)) in Hin.
    vm_compute in Hin. intuition discriminate.
Qed.

(** C2, amended: the fragment loads a CSV with [pd.read_csv], builds two
    [prince.MCA] objects, and calls on them [fit] (twice),
    [row_coordinates], [column_coordinates], [plot],
    [row_cosine_similarities] and [column_cosine_similarities], reads the
    attributes [eigenvalues_summary], [row_contributions_] and
    [column_contributions_], and shows eight tables and one chart.  Nothing
    invokes [transform]: no call of any cell goes to it, on a variable or on
    the result of another call; the word is neither an identifier nor a
    string in the text of the cells; and no run, over any library, asks any
    object for an attribute of that name. *)
Theorem C2_methods_called :
  Notebook.method_names (Py.calls_named "read_csv" Notebook.all_calls) = ["read_csv"]
  /\ Notebook.estimators = ["mca"; "mca_no_one_hot"]
  /\ Notebook.method_names Notebook.estimator_calls
     = [ "fit"; "fit"; "row_coordinates"; "column_coordinates"; "plot";
         "row_cosine_similarities"; "column_cosine_similarities" ]
  /\ Notebook.all_reads
     = [ (Some "mca", "eigenvalues_summary");
         (Some "mca", "row_contributions_"); (Some "mca", "style");
         (Some "mca", "column_contributions_"); (Some "mca", "style") ]
  /\ Notebook.method_names Notebook.all_calls
     = [ "read_csv"; "head"; "MCA"; "fit"; "get_dummies"; "MCA"; "fit";
         "row_coordinates"; "head"; "column_coordinates"; "head"; "plot";
         "head"; "format"; "head"; "format";
         "row_cosine_similarities"; "head";
         "column_cosine_similarities"; "head" ]
  /\ length Notebook.all_calls = 20%nat
  /\ Notebook.called "fit" = true
  /\ Notebook.called "plot" = true
  /\ Notebook.called "transform" = false
  /\ Notebook.mentioned "fit" = true
  /\ Notebook.mentioned "plot" = true
  /\ Notebook.mentioned "transform" = false
  /\ (forall (V H E : Type) (L : Sem.library V H E) (n : nat) (st : Sem.state V H),
        ~ In (Py.KGetattr "transform")
            (Sem.shape (fst (Sem.run_cell L (S n) Notebook.program st))))
  /\ Notebook.table_shape <$> Notebook.all_outputs
     = [ Some (5, 5); Some (3, 3); Some (5, 3); Some (5, 3); None;
         Some (5, 3); Some (5, 3); Some (5, 3); Some (5, 3) ]%nat
  /\ Notebook.is_chart <$> Notebook.all_outputs
     = [ false; false; false; false; true; false; false; false; false ].
Proof.
  conjuncts; try computed.
  intros V H E L n st Hin.
  apply (shape_within _ _ (follows_run_cell L n Notebook.program eq_refl)) in Hin.
  vm_compute in Hin. intuition discriminate.
Qed.

(** C3: right after the CSV read the columns are set to Color, Size, Action,
    Age, Inflated, in that order, and the recorded table has these columns;
    every call of [fit], of a coordinates or cosine-similarities method and
    of [plot] is handed the variable [dataset] or the variable [one_hot],
    which is bound once, to [pd.get_dummies(dataset)]; no later statement
    rebinds either variable or stores into its object, and the only method
    called on them is [dataset.head()].  In a run, over any library: cell 4
    sets the five labels on the very object that [read_csv] returned and
    binds [dataset] to it; the [fit] of cell 6 and the coordinates,
    cosine-similarities and plot methods of cells 12 to 21 are handed the
    object bound to [dataset]; the [get_dummies] of cell 8 is handed that
    object, and what it returns is bound to [one_hot] and handed to the
    second [fit]; and no cell after cell 4 stores into an attribute or
    rebinds [dataset], none after cell 8 rebinds [one_hot]. *)
Theorem C3_dataset_passed_unchanged :
  (nth_error Notebook.program 1
   = Some (Py.SAssign (Py.TName "dataset")
             (Py.ECall (Py.EAttribute (Py.EName "pd") "read_csv")
                [Notebook.str Prince.url] []))
   /\ nth_error Notebook.program 2
      = Some (Py.SAssign (Py.TAttribute (Py.EName "dataset") "columns")
                (Py.EList (Notebook.str <$> Prince.labels)))
   /\ Prince.labels = ["Color"; "Size"; "Action"; "Age"; "Inflated"]
   /\ Notebook.frame_columns <$> Notebook.shown Notebook.cell4 = Some Prince.labels
   /\ nth_error Notebook.program 7
      = Some (Py.SAssign (Py.TName "one_hot")
                (Py.ECall (Py.EAttribute (Py.EName "pd") "get_dummies")
                   [Py.EName "dataset"] []))
   /\ Py.cs_args <$> Notebook.table_calls
      = [ [Py.EName "dataset"]; [Py.EName "one_hot"]; [Py.EName "dataset"];
          [Py.EName "dataset"]; [Py.EName "dataset"]; [Py.EName "dataset"];
          [Py.EName "dataset"] ]
   /\ List.filter (Py.touches "dataset") (flat_map Py.targets Notebook.program)
      = [ Py.TName "dataset"; Py.TAttribute (Py.EName "dataset") "columns" ]
   /\ List.filter (Py.touches "one_hot") (flat_map Py.targets Notebook.program)
      = [ Py.TName "one_hot" ]
   /\ Notebook.untouched "dataset" (Notebook.after 2) = true
   /\ Notebook.untouched "one_hot" (Notebook.after 7) = true
   /\ Notebook.methods_on "dataset" = ["head"]
   /\ Notebook.methods_on "one_hot" = []
   /\ Flow.dataset_calls
      = [ (Notebook.cell12, "row_coordinates", []);
          (Notebook.cell13, "column_coordinates", []);
          (Notebook.cell15, "plot",
           [("x_component", Py.CInt 0); ("y_component", Py.CInt 1)]);
          (Notebook.cell20, "row_cosine_similarities", []);
          (Notebook.cell21, "column_cosine_similarities", []) ])
  /\ (forall (V H E : Type) (L : Sem.library V H E) (n : nat) (st : Sem.state V H)
             (pdv rc d : V) (h1 h2 h3 : H),
        Sem.import_module L "pandas" (Sem.heap st) = inr (pdv, h1) ->
        Sem.getattr L pdv "read_csv" h1 = inr (rc, h2) ->
        Sem.call L rc [Sem.of_constant L (Py.CStr Prince.url)] [] h2 = inr (d, h3) ->
        exists ev rest,
          fst (Sem.run_cell L (S n) (Notebook.body_of Notebook.cell4) st)
          = [ Sem.Returned (Sem.RImport "pandas"); Sem.Returned (Sem.RLookup "pd");
              Sem.Returned (Sem.RGetattr pdv "read_csv");
              Sem.Returned (Sem.RCall rc [Sem.of_constant L (Py.CStr Prince.url)] []);
              Sem.Returned (Sem.RLookup "dataset"); ev ] ++ rest
          /\ Flow.answered (Sem.RSetattr d "columns" (Flow.strings L Prince.labels))
               (Sem.setattr L d "columns" (Flow.strings L Prince.labels) h3) ev
          /\ match Flow.final (snd (Sem.run_cell L (S n)
                                      (Notebook.body_of Notebook.cell4) st)) with
             | Some st' => Sem.env st' !! "dataset" = Some d
             | None => False
             end)
  /\ (forall (V H E : Type) (L : Sem.library V H E) (n : nat) (st : Sem.state V H)
             (d pv ctor est f : V) (h1 h2 h3 h4 : H),
        Sem.env st !! "dataset" = Some d ->
        Sem.import_module L "prince" (Sem.heap st) = inr (pv, h1) ->
        Sem.getattr L pv "MCA" h1 = inr (ctor, h2) ->
        Sem.call L ctor [] (Flow.keyword_values L Prince.primary_keywords) h2
        = inr (est, h3) ->
        Sem.getattr L est "fit" h3 = inr (f, h4) ->
        exists ev,
          fst (Sem.run_cell L (S n) (Notebook.body_of Notebook.cell6) st)
          = [ Sem.Returned (Sem.RImport "prince"); Sem.Returned (Sem.RLookup "prince");
              Sem.Returned (Sem.RGetattr pv "MCA");
              Sem.Returned
                (Sem.RCall ctor [] (Flow.keyword_values L Prince.primary_keywords));
              Sem.Returned (Sem.RLookup "mca"); Sem.Returned (Sem.RGetattr est "fit");
              Sem.Returned (Sem.RLookup "dataset"); ev ]
          /\ Flow.answered (Sem.RCall f [d] []) (Sem.call L f [d] [] h4) ev)
  /\ (forall (V H E : Type) (L : Sem.library V H E) (n : nat) (st : Sem.state V H)
             (pdv d pv g oh ctor est f : V) (h1 h2 h3 h4 h5 : H),
        Sem.env st !! "pd" = Some pdv -> Sem.env st !! "dataset" = Some d ->
        Sem.env st !! "prince" = Some pv ->
        Sem.getattr L pdv "get_dummies" (Sem.heap st) = inr (g, h1) ->
        Sem.call L g [d] [] h1 = inr (oh, h2) ->
        Sem.getattr L pv "MCA" h2 = inr (ctor, h3) ->
        Sem.call L ctor [] (Flow.keyword_values L Prince.secondary_keywords) h3
        = inr (est, h4) ->
        Sem.getattr L est "fit" h4 = inr (f, h5) ->
        exists ev,
          fst (Sem.run_cell L (S n) (Notebook.body_of Notebook.cell8) st)
          = [ Sem.Returned (Sem.RLookup "pd");
              Sem.Returned (Sem.RGetattr pdv "get_dummies");
              Sem.Returned (Sem.RLookup "dataset"); Sem.Returned (Sem.RCall g [d] []);
              Sem.Returned (Sem.RLookup "prince"); Sem.Returned (Sem.RGetattr pv "MCA");
              Sem.Returned
                (Sem.RCall ctor [] (Flow.keyword_values L Prince.secondary_keywords));
              Sem.Returned (Sem.RLookup "mca_no_one_hot");
              Sem.Returned (Sem.RGetattr est "fit");
              Sem.Returned (Sem.RLookup "one_hot"); ev ]
          /\ Flow.answered (Sem.RCall f [oh] []) (Sem.call L f [oh] [] h5) ev
          /\ match Flow.final (snd (Sem.run_cell L (S n)
                                      (Notebook.body_of Notebook.cell8) st)) with
             | Some st' => Sem.env st' !! "one_hot" = Some oh
             | None => False
             end)
  /\ (forall (V H E : Type) (L : Sem.library V H E) (c : Notebook.cell) (a : string)
             (kws : list (string * Py.constant)) (n : nat) (st : Sem.state V H)
             (m d f : V) (h1 : H),
        In (c, a, kws) Flow.dataset_calls ->
        Sem.env st !! "mca" = Some m -> Sem.env st !! "dataset" = Some d ->
        Sem.getattr L m a (Sem.heap st) = inr (f, h1) ->
        exists ev rest,
          fst (Sem.run_cell L (S n) (Notebook.body_of c) st)
          = [ Sem.Returned (Sem.RLookup "mca"); Sem.Returned (Sem.RGetattr m a);
              Sem.Returned (Sem.RLookup "dataset"); ev ] ++ rest
          /\ Flow.answered (Sem.RCall f [d] (Flow.keyword_values L kws))
               (Sem.call L f [d] (Flow.keyword_values L kws) h1) ev)
  /\ (forall (V H E : Type) (L : Sem.library V H E) (c : Notebook.cell) (n : nat)
             (st : Sem.state V H),
        In c (drop 1 Notebook.code_cells) ->
        (forall ev o a v,
            In ev (fst (Sem.run_cell L (S n) (Notebook.body_of c) st)) ->
            ~ Flow.asked (Sem.RSetattr o a v) ev)
        /\ match Flow.final (snd (Sem.run_cell L (S n) (Notebook.body_of c) st)) with
           | Some st' =>
               Sem.env st' !! "dataset" = Sem.env st !! "dataset"
               /\ (In c (drop 3 Notebook.code_cells) ->
                   Sem.env st' !! "one_hot" = Sem.env st !! "one_hot")
           | None => False
           end).
Proof.
  split; [conjuncts; computed|]. conjuncts.
  - intros V H E L. apply (cell4_run L).
  - intros V H E L. apply (cell6_run L).
  - intros V H E L. apply (cell8_run L).
  - intros V H E L. apply (retrieval_run L).
  - intros V H E L. apply (later_cells_leave_tables L).
Qed.

Section Claims.

Context {DataFrame Model Chart Styler Err Seed : Type}.
Variable K : Prince.kernels DataFrame Model Chart Styler Err Seed.

Abbreviation later := (fun c => In c (Prince.later_cells K)).

(** C4: the primary estimator is fitted on the raw dataset; the fragment
    also builds [one_hot = pd.get_dummies(dataset)] and fits a second
    estimator, built with [one_hot=False] and nothing else, on [one_hot].
    That fit hands the table to the analysis as it is, where the primary
    fit first encodes: the second fit is one and the same whatever the
    library's own encoding does.  Cell 8 succeeds as soon as the encoding of
    the dataset and the analysis of the encoded table do, and the recorded
    run of cell 8 (execution count 13) left no error output. *)
Theorem C4_second_fit_skips_encoding :
  (Notebook.body_of Notebook.cell8
   = [ Py.SAssign (Py.TName "one_hot")
         (Py.ECall (Py.EAttribute (Py.EName "pd") "get_dummies")
            [Py.EName "dataset"] []);
       Py.SAssign (Py.TName "mca_no_one_hot")
         (Py.ECall (Py.EAttribute (Py.EName "prince") "MCA") []
            [("one_hot", Py.EConstant (Py.CBool false))]);
       Py.SAssign (Py.TName "mca_no_one_hot")
         (Py.ECall (Py.EAttribute (Py.EName "mca_no_one_hot") "fit")
            [Py.EName "one_hot"] []) ]
   /\ Py.calls_named "fit" Notebook.all_calls
      = [ Py.CallSite (Py.EAttribute (Py.EName "mca") "fit") [Py.EName "dataset"] [];
          Py.CallSite (Py.EAttribute (Py.EName "mca_no_one_hot") "fit")
            [Py.EName "one_hot"] [] ]
   /\ Py.constant_keywords <$> Notebook.constructor_calls
      = [ Some Prince.primary_keywords; Some Prince.secondary_keywords ]
   /\ Notebook.constructor_keyword "one_hot"
      = [ None; Some (Py.EConstant (Py.CBool false)) ]
   /\ Notebook.execution_count_of Notebook.cell8 = Some 13
   /\ existsb Notebook.is_error (Notebook.outputs_of Notebook.cell8) = false)
  /\ (forall g X,
        Prince.fit_table K Prince.secondary g X
        = sum_map id (Prince.with_model Prince.secondary)
            (Prince.ca_fit K Prince.secondary g X))
  /\ (forall g X,
        Prince.fit_table K Prince.primary g X
        = match Prince.get_dummies K X with
          | inl e => inl e
          | inr indicator =>
              sum_map id (Prince.with_model Prince.primary)
                (Prince.ca_fit K Prince.primary g indicator)
          end)
  /\ (forall s d oh md,
        Prince.ns_pd s = true -> Prince.ns_prince s = true ->
        Prince.ns_dataset s = Some d ->
        Prince.get_dummies K d = inr oh ->
        Prince.ca_fit K Prince.secondary (Prince.rng s) oh = inr md ->
        snd (Prince.cell8 K s) = inr Prince.Nothing
        /\ Prince.ns_one_hot (fst (Prince.cell8 K s)) = Some oh
        /\ Prince.ns_mca_no_one_hot (fst (Prince.cell8 K s))
           = Some (Prince.with_model Prince.secondary md)).
Proof.
  split; [conjuncts; computed|]. conjuncts.
  - intros g X. exact (fit_table_pre_encoded K Prince.secondary g X eq_refl).
  - intros g X. exact (fit_table_encodes K Prince.primary g X eq_refl).
  - apply (cell8_succeeds K).
Qed.

(** C6: [plot] is called once in the whole notebook, as
    [mca.plot(dataset, x_component=0, y_component=1)]; the other calls go to
    [read_csv], [head], [MCA], [fit], [get_dummies], the coordinates and
    cosine-similarities methods and [format]; one recorded output is a
    chart, the one of that cell.  In a run, over any library: cell 15 takes
    [plot] from the object bound to [mca] and makes that one call, with the
    object bound to [dataset] and the components 0 and 1, and nothing else;
    and a run of the whole notebook asks for [plot] once when it completes,
    at most once when it raises.  On the cell functions: cell 15 shows a
    figure exactly when the plot of the dataset on components 0 and 1 is
    drawn, that figure, and no other cell shows one. *)
Theorem C6_one_scatter_plot :
  (Py.calls_named "plot" Notebook.all_calls
   = [ Py.CallSite (Py.EAttribute (Py.EName "mca") "plot") [Py.EName "dataset"]
         [("x_component", Notebook.int 0); ("y_component", Notebook.int 1)] ]
   /\ Notebook.method_names Notebook.all_calls
      = [ "read_csv"; "head"; "MCA"; "fit"; "get_dummies"; "MCA"; "fit";
          "row_coordinates"; "head"; "column_coordinates"; "head"; "plot";
          "head"; "format"; "head"; "format";
          "row_cosine_similarities"; "head";
          "column_cosine_similarities"; "head" ]
   /\ Flow.plot_requests (flat_map Py.plan_stmt Notebook.program)
      = [Py.KGetattr "plot"]
   /\ List.filter Notebook.is_chart Notebook.all_outputs
      = Notebook.outputs_of Notebook.cell15
   /\ length (Notebook.outputs_of Notebook.cell15) = 1%nat)
  /\ (forall (V H E : Type) (L : Sem.library V H E) (n : nat) (st : Sem.state V H)
             (m d f : V) (h1 : H),
        Sem.env st !! "mca" = Some m -> Sem.env st !! "dataset" = Some d ->
        Sem.getattr L m "plot" (Sem.heap st) = inr (f, h1) ->
        let kws := [ ("x_component", Sem.of_constant L (Py.CInt 0));
                     ("y_component", Sem.of_constant L (Py.CInt 1)) ] in
        let before := [ Sem.Returned (Sem.RLookup "mca");
                        Sem.Returned (Sem.RGetattr m "plot");
                        Sem.Returned (Sem.RLookup "dataset") ] in
        Sem.run_cell L (S n) (Notebook.body_of Notebook.cell15) st
        = match Sem.call L f [d] kws h1 with
          | inr (_, h2) =>
              (before ++ [Sem.Returned (Sem.RCall f [d] kws)],
               Sem.Done tt (Sem.State (Sem.env st) h2))
          | inl e =>
              (before ++ [Sem.Raised (Sem.RCall f [d] kws) e],
               Sem.Fail e (Sem.State (Sem.env st) h1))
          end)
  /\ (forall (V H E : Type) (L : Sem.library V H E) (n : nat) (st : Sem.state V H),
        match snd (Sem.run_cell L (S n) Notebook.program st) with
        | Sem.Done _ _ =>
            Flow.plot_requests
              (Sem.shape (fst (Sem.run_cell L (S n) Notebook.program st)))
            = [Py.KGetattr "plot"]
        | Sem.Fail _ _ =>
            (length (Flow.plot_requests
                       (Sem.shape (fst (Sem.run_cell L (S n) Notebook.program st))))
             <= 1)%nat
        | Sem.Timeout => False
        end)
  /\ (forall s ch,
        snd (Prince.cell15 K s) = inr (Prince.Figure ch)
        <-> exists m md d,
              Prince.ns_mca s = Some m /\ Prince.fitted m = Some md
              /\ Prince.ns_dataset s = Some d
              /\ Prince.plot K md d 0 1 = inr ch)
  /\ (forall c s ch,
        In c [ Prince.cell4 K; Prince.cell6 K; Prince.cell8 K; Prince.cell10 K;
               Prince.cell12 K; Prince.cell13 K; Prince.cell17 K;
               Prince.cell18 K; Prince.cell20 K; Prince.cell21 K ] ->
        snd (c s) <> inr (Prince.Figure ch)).
Proof.
  split; [conjuncts; computed|]. conjuncts.
  - intros V H E L. apply (cell15_run L).
  - intros V H E L. apply (one_plot_request L).
  - intros s ch. split.
    + apply (cell15_draws K).
    + intros (m & md & d & Hm & Hmd & Hd & Hplot).
      exact (cell15_shows K s m md d ch Hm Hmd Hd Hplot).
  - apply (only_cell15_draws K).
Qed.

(** C7: the primary estimator is built with [random_state=42] (the second
    one with none).  Take two sessions with the same dataset, whatever
    their generator state and their other variables: cell 6 ends the same
    way in both and leaves the same fitted estimator, and after any later
    cells, run in any order, every retrieval cell (eigenvalue summary,
    coordinates, plot, contributions, cosine similarities) shows the same
    in both. *)
Theorem C7_seeded_fit_is_deterministic :
  Notebook.constructor_keyword "random_state" = [ Some (Notebook.int 42); None ]
  /\ (forall s1 s2 cs c,
        Prince.ns_dataset s1 = Prince.ns_dataset s2 ->
        Forall later cs ->
        In c (Prince.retrievals K) ->
        snd (Prince.cell6 K s1) = snd (Prince.cell6 K s2)
        /\ Prince.ns_mca (fst (Prince.cell6 K s1))
           = Prince.ns_mca (fst (Prince.cell6 K s2))
        /\ snd (c (Prince.replay (Prince.cell6 K :: cs) s1))
           = snd (c (Prince.replay (Prince.cell6 K :: cs) s2))).
Proof.
  split; [computed|].
  intros s1 s2 cs c Hd Hcs Hc.
  destruct (cell6_deterministic K s1 s2 Hd) as [Hout Hsame].
  split; [exact Hout|]. split; [apply Hsame|].
  apply (retrieval_deterministic K); [exact Hc|].
  simpl. apply (replay_keeps_same_primary K); assumption.
Qed.

End Claims.

(** What transparency says of a run, event by event. *)
Lemma transparent_events {V H E A : Type}
    (out : list (Sem.event V E) * Sem.result V H E A) :
  Sem.transparent out ->
  (forall e, ~ In (Sem.Caught e) (fst out))
  /\ (forall r e, In (Sem.Raised r e) (fst out) ->
        exists t0 s', fst out = t0 ++ [Sem.Raised r e] /\ snd out = Sem.Fail e s')
  /\ (forall e s', snd out = Sem.Fail e s' ->
        exists r t0, fst out = t0 ++ [Sem.Raised r e]).
Proof.
  destruct out as [t res]. unfold Sem.transparent. simpl.
  assert (Hquiet : forall t0 : list (Sem.event V E),
            Forall Sem.is_returned t0 ->
            (forall e, ~ In (Sem.Caught e) t0)
            /\ (forall r e, ~ In (Sem.Raised r e) t0)).
  { intros t0 Hq. rewrite List.Forall_forall in Hq.
    split; intros; intros Hin; apply Hq in Hin; exact Hin. }
  destruct res as [a s|e s|].
  - intros Hq. destruct (Hquiet t Hq) as [Hc Hr]. split; [exact Hc|]. split.
    + intros r e Hin. destruct (Hr r e Hin).
    + discriminate.
  - intros (t0 & r & -> & Hq). destruct (Hquiet t0 Hq) as [Hc Hr].
    split; [|split].
    + intros e' Hin. apply in_app_or in Hin as [Hin|[Hin|[]]].
      * exact (Hc e' Hin).
      * discriminate.
    + intros r' e' Hin. apply in_app_or in Hin as [Hin|[Hin|[]]].
      * destruct (Hr r' e' Hin).
      * injection Hin as <- <-. exists t0, s. split; reflexivity.
    + intros e' s' Heq. injection Heq as <- <-. exists r, t0. reflexivity.
  - intros Hq. destruct (Hquiet t Hq) as [Hc Hr]. split; [exact Hc|]. split.
    + intros r e Hin. destruct (Hr r e Hin).
    + discriminate.
Qed.

(** C5: no code cell holds a [try] or a [with], in its tree or in its text
    (nor an [except], [finally] or [raise]).  So over any library and
    runtime, and from any state, a run of a code cell catches nothing; an
    exception raised by a request is the last event of the run and is the
    exception the cell ends with; a cell that ends with an exception ends
    with the one its last request raised; and the run never stops for lack
    of fuel. *)
Theorem C5_exceptions_propagate :
  forallb Py.handler_free Notebook.program = true
  /\ Notebook.absent ["try"; "except"; "finally"; "with"; "raise"] = true
  /\ (forall (V H E : Type) (L : Sem.library V H E) c fuel s,
        In c Notebook.code_cells ->
        let out := Sem.run_cell L fuel (Notebook.body_of c) s in
        (forall e, ~ In (Sem.Caught e) (fst out))
        /\ (forall r e, In (Sem.Raised r e) (fst out) ->
              exists t0 s', fst out = t0 ++ [Sem.Raised r e]
                            /\ snd out = Sem.Fail e s')
        /\ (forall e s', snd out = Sem.Fail e s' ->
              exists r t0, fst out = t0 ++ [Sem.Raised r e])
        /\ ((1 <= fuel)%nat -> snd out <> Sem.Timeout)).
Proof.
  split; [computed|]. split; [computed|].
  intros V H E L c fuel s Hc out.
  assert (Hfree : forallb Py.handler_free (Notebook.body_of c) = true
                  /\ forallb Py.straight_line (Notebook.body_of c) = true).
  { simpl in Hc.
    repeat match type of Hc with
           | _ \/ _ => destruct Hc as [<-|Hc]; [split; reflexivity|]
           | False => destruct Hc
           end. }
  destruct Hfree as [Hfree Hline].
  pose proof (transparent_events out
                (transparent_run_cell L fuel (Notebook.body_of c) Hfree s))
    as (Hcaught & Hraised & Hfail).
  conjuncts; try assumption.
  intros Hfuel Htimeout. destruct fuel as [|n]; [lia|].
  pose proof (follows_run_cell L n (Notebook.body_of c) Hline s) as Hplan.
  unfold Sem.on_plan in Hplan. fold out in Hplan.
  rewrite Htimeout in Hplan. exact Hplan.
Qed.

(** ** The claims at work on the small libraries *)

Lemma all_later (K : Prince.kernels Toy.frame (Z * Toy.frame) Toy.chart string string Z) :
  Forall (fun c => In c (Prince.later_cells K)) (Prince.later_cells K).
Proof. apply List.Forall_forall. intros c Hc. exact Hc. Qed.

(** Cell 4 from scratch, cell 6 after it, cells 8 and 12 after both, on the
    small library: what [read_csv] returned gets the labels and is bound to
    [dataset], and the methods are handed the object bound to [dataset]. *)
Lemma C3_witness :
  (exists ev rest,
     fst (Sem.run_cell (Toy.lib "none") 1 (Notebook.body_of Notebook.cell4) Toy.start)
     = [ Sem.Returned (Sem.RImport "pandas"); Sem.Returned (Sem.RLookup "pd");
         Sem.Returned (Sem.RGetattr "pandas" "read_csv");
         Sem.Returned (Sem.RCall "pandas.read_csv" [Prince.url] []);
         Sem.Returned (Sem.RLookup "dataset"); ev ] ++ rest
     /\ ev = Sem.Returned (Sem.RSetattr "pandas.read_csv()" "columns" "list")
     /\ match Flow.final (snd (Sem.run_cell (Toy.lib "none") 1
                                 (Notebook.body_of Notebook.cell4) Toy.start)) with
        | Some st' => Sem.env st' !! "dataset" = Some "pandas.read_csv()"
        | None => False
        end)
  /\ (exists ev,
        fst (Sem.run_cell (Toy.lib "none") 1 (Notebook.body_of Notebook.cell6) Toy.loaded)
        = [ Sem.Returned (Sem.RImport "prince"); Sem.Returned (Sem.RLookup "prince");
            Sem.Returned (Sem.RGetattr "prince" "MCA");
            Sem.Returned
              (Sem.RCall "prince.MCA" []
                 [ ("n_components", "3"); ("n_iter", "3"); ("copy", "True");
                   ("check_input", "True"); ("engine", "sklearn");
                   ("random_state", "42") ]);
            Sem.Returned (Sem.RLookup "mca");
            Sem.Returned (Sem.RGetattr "prince.MCA()" "fit");
            Sem.Returned (Sem.RLookup "dataset"); ev ]
        /\ ev = Sem.Returned (Sem.RCall "prince.MCA().fit" ["dataset"] []))
  /\ (exists ev,
        fst (Sem.run_cell (Toy.lib "none") 1 (Notebook.body_of Notebook.cell8) Toy.fitted)
        = [ Sem.Returned (Sem.RLookup "pd");
            Sem.Returned (Sem.RGetattr "pandas" "get_dummies");
            Sem.Returned (Sem.RLookup "dataset");
            Sem.Returned (Sem.RCall "pandas.get_dummies" ["dataset"] []);
            Sem.Returned (Sem.RLookup "prince");
            Sem.Returned (Sem.RGetattr "prince" "MCA");
            Sem.Returned (Sem.RCall "prince.MCA" [] [("one_hot", "False")]);
            Sem.Returned (Sem.RLookup "mca_no_one_hot");
            Sem.Returned (Sem.RGetattr "prince.MCA()" "fit");
            Sem.Returned (Sem.RLookup "one_hot"); ev ]
        /\ ev = Sem.Returned (Sem.RCall "prince.MCA().fit" ["pandas.get_dummies()"] [])
        /\ match Flow.final (snd (Sem.run_cell (Toy.lib "none") 1
                                    (Notebook.body_of Notebook.cell8) Toy.fitted)) with
           | Some st' => Sem.env st' !! "one_hot" = Some "pandas.get_dummies()"
           | None => False
           end)
  /\ (exists ev rest,
        fst (Sem.run_cell (Toy.lib "none") 1 (Notebook.body_of Notebook.cell12) Toy.fitted)
        = [ Sem.Returned (Sem.RLookup "mca");
            Sem.Returned (Sem.RGetattr "mca" "row_coordinates");
            Sem.Returned (Sem.RLookup "dataset"); ev ] ++ rest
        /\ ev = Sem.Returned (Sem.RCall "mca.row_coordinates" ["dataset"] []))
  /\ match Flow.final (snd (Sem.run_cell (Toy.lib "mca.row_coordinates") 1
                              (Notebook.body_of Notebook.cell12) Toy.fitted)) with
     | Some st' => Sem.env st' !! "dataset" = Some "dataset"
     | None => False
     end.
Proof.
  destruct C3_dataset_passed_unchanged as (_ & H4 & H6 & H8 & Hcall & Hlater).
  split; [|split; [|split; [|split]]].
  - apply (H4 _ _ _ (Toy.lib "none") 0%nat Toy.start "pandas" "pandas.read_csv"
              "pandas.read_csv()" 0%nat 0%nat 1%nat); reflexivity.
  - apply (H6 _ _ _ (Toy.lib "none") 0%nat Toy.loaded "dataset" "prince" "prince.MCA"
              "prince.MCA()" "prince.MCA().fit" 1%nat 1%nat 2%nat 2%nat); reflexivity.
  - apply (H8 _ _ _ (Toy.lib "none") 0%nat Toy.fitted "pandas" "dataset" "prince"
              "pandas.get_dummies" "pandas.get_dummies()" "prince.MCA" "prince.MCA()"
              "prince.MCA().fit" 2%nat 3%nat 3%nat 4%nat 4%nat); reflexivity.
  - apply (Hcall _ _ _ (Toy.lib "none") Notebook.cell12 "row_coordinates" [] 0%nat
                 Toy.fitted "mca" "dataset" "mca.row_coordinates" 2%nat);
      [vm_compute; tauto | reflexivity ..].
  - destruct (Hlater _ _ _ (Toy.lib "mca.row_coordinates") Notebook.cell12 0%nat
                     Toy.fitted ltac:(simpl; tauto)) as [_ Hkeep].
    destruct (Flow.final _) as [st'|]; [|exact Hkeep].
    destruct Hkeep as [-> _]. reflexivity.
Defined.

Lemma C4_witness :
  snd (Prince.cell8 Toy.kernels
         (Prince.replay [Prince.cell4 Toy.kernels; Prince.cell6 Toy.kernels]
            (Toy.session0 7))) = inr Prince.Nothing
  /\ Prince.ns_one_hot
       (fst (Prince.cell8 Toy.kernels
               (Prince.replay [Prince.cell4 Toy.kernels; Prince.cell6 Toy.kernels]
                  (Toy.session0 7))))
     = Some [ ["Color_1"; "Size_1"; "Action_1"; "Age_1"; "Inflated_1"];
              ["YELLOW_1"; "SMALL_1"; "STRETCH_1"; "ADULT_1"; "T_1"];
              ["YELLOW_1"; "SMALL_1"; "STRETCH_1"; "CHILD_1"; "F_1"] ].
Proof.
  destruct (C4_second_fit_skips_encoding Toy.kernels) as (_ & _ & _ & Hcell).
  pose (s := Prince.replay [Prince.cell4 Toy.kernels; Prince.cell6 Toy.kernels]
               (Toy.session0 7)).
  destruct (Hcell s
              [ ["Color"; "Size"; "Action"; "Age"; "Inflated"];
                ["YELLOW"; "SMALL"; "STRETCH"; "ADULT"; "T"];
                ["YELLOW"; "SMALL"; "STRETCH"; "CHILD"; "F"] ]
              [ ["Color_1"; "Size_1"; "Action_1"; "Age_1"; "Inflated_1"];
                ["YELLOW_1"; "SMALL_1"; "STRETCH_1"; "ADULT_1"; "T_1"];
                ["YELLOW_1"; "SMALL_1"; "STRETCH_1"; "CHILD_1"; "F_1"] ]
              (7, [ ["Color_1"; "Size_1"; "Action_1"; "Age_1"; "Inflated_1"];
                    ["YELLOW_1"; "SMALL_1"; "STRETCH_1"; "ADULT_1"; "T_1"];
                    ["YELLOW_1"; "SMALL_1"; "STRETCH_1"; "CHILD_1"; "F_1"] ]))
    as (Hout & Hoh & _); try (vm_compute; reflexivity).
  split; [exact Hout | exact Hoh].
Defined.

(** On a library whose [read_csv] raises, cell 4 ends with that exception:
    it is raised by the last request, nothing is caught, and one unit of
    fuel is enough. *)
Lemma C5_witness :
  let out := Sem.run_cell (Toy.lib "pandas.read_csv") 1
               (Notebook.body_of Notebook.cell4) Toy.start in
  (exists r t0, fst out = t0 ++ [Sem.Raised r "Error in pandas.read_csv"])
  /\ (exists t0 s',
        fst out
        = t0 ++ [Sem.Raised (Sem.RCall "pandas.read_csv" [Prince.url] [])
                   "Error in pandas.read_csv"]
        /\ snd out = Sem.Fail "Error in pandas.read_csv" s')
  /\ snd out <> Sem.Timeout.
Proof.
  intros out.
  destruct C5_exceptions_propagate as (_ & _ & Hrun).
  destruct (Hrun _ _ _ (Toy.lib "pandas.read_csv") Notebook.cell4 1%nat Toy.start)
    as (_ & Hraised & Hfail & Hfuel).
  - simpl. tauto.
  - split; [|split].
    + eapply Hfail. vm_compute. reflexivity.
    + apply Hraised. vm_compute. tauto.
    + apply Hfuel. lia.
Defined.

(** After cells 4 and 6 on the small kernels, cell 15 shows the plot of the
    dataset on components 0 and 1 and cell 12 shows no figure; on the small
    library cell 15 is the one call of [plot]. *)
Lemma C6_witness :
  snd (Prince.cell15 Toy.kernels
         (Prince.replay [Prince.cell4 Toy.kernels; Prince.cell6 Toy.kernels]
            (Toy.session0 7)))
  = inr (Prince.Figure
           ([ ["Color"; "Size"; "Action"; "Age"; "Inflated"];
              ["YELLOW"; "SMALL"; "STRETCH"; "ADULT"; "T"];
              ["YELLOW"; "SMALL"; "STRETCH"; "CHILD"; "F"] ], 0, 1))
  /\ (forall ch,
        snd (Prince.cell12 Toy.kernels
               (Prince.replay [Prince.cell4 Toy.kernels; Prince.cell6 Toy.kernels]
                  (Toy.session0 7)))
        <> inr (Prince.Figure ch))
  /\ Sem.run_cell (Toy.lib "none") 1 (Notebook.body_of Notebook.cell15) Toy.fitted
     = ( [ Sem.Returned (Sem.RLookup "mca"); Sem.Returned (Sem.RGetattr "mca" "plot");
           Sem.Returned (Sem.RLookup "dataset");
           Sem.Returned (Sem.RCall "mca.plot" ["dataset"]
                           [("x_component", "0"); ("y_component", "1")]) ],
         Sem.Done tt (Sem.State (Sem.env Toy.fitted) 3%nat) ).
Proof.
  destruct (C6_one_scatter_plot Toy.kernels) as (_ & Hrun & _ & Hshows & Hothers).
  split; [|split].
  - apply Hshows. eexists _, _, _.
    split; [vm_compute; reflexivity|]. split; [vm_compute; reflexivity|].
    split; [vm_compute; reflexivity|]. vm_compute. reflexivity.
  - intros ch. apply Hothers. simpl. tauto.
  - apply (Hrun _ _ _ (Toy.lib "none") 0%nat Toy.fitted "mca" "dataset" "mca.plot"
                2%nat); reflexivity.
Defined.

(** Two sessions with the same dataset and different generators. *)
Lemma C7_witness :
  snd (Prince.cell10 Toy.kernels
         (Prince.replay (Prince.cell6 Toy.kernels :: Prince.later_cells Toy.kernels)
            (fst (Prince.cell4 Toy.kernels (Toy.session0 1)))))
  = snd (Prince.cell10 Toy.kernels
           (Prince.replay (Prince.cell6 Toy.kernels :: Prince.later_cells Toy.kernels)
              (fst (Prince.cell4 Toy.kernels (Toy.session0 2))))).
Proof.
  destruct (C7_seeded_fit_is_deterministic Toy.kernels) as (_ & Hruns).
  apply (Hruns (fst (Prince.cell4 Toy.kernels (Toy.session0 1)))
               (fst (Prince.cell4 Toy.kernels (Toy.session0 2)))
               (Prince.later_cells Toy.kernels) (Prince.cell10 Toy.kernels)).
  - vm_compute. reflexivity.
  - apply all_later.
  - simpl. tauto.
Defined.

(** ** What a handler and a missing seed change *)

(** A [try] stops the exception that the cells let through. *)
Lemma handler_stops_exception :
  exists s,
    Sem.run_cell (Toy.lib "pandas.read_csv") 2 [Toy.guarded_read] Toy.start
    = ( [ Sem.Raised (Sem.RLookup "pd") "NameError: pd";
          Sem.Caught "NameError: pd" ],
        Sem.Done tt s ).
Proof. eexists. vm_compute. reflexivity. Qed.

(** The second estimator has no [random_state]: its fit follows the
    generator, and two sessions with the same dataset can end up with
    different models. *)
Lemma unseeded_fit_follows_generator :
  Prince.ns_mca_no_one_hot
    (Prince.replay
       [Prince.cell4 Toy.kernels; Prince.cell6 Toy.kernels; Prince.cell8 Toy.kernels]
       (Toy.session0 1))
  <> Prince.ns_mca_no_one_hot
       (Prince.replay
          [Prince.cell4 Toy.kernels; Prince.cell6 Toy.kernels; Prince.cell8 Toy.kernels]
          (Toy.session0 2)).
Proof. vm_compute. discriminate. Qed.


(** ** The namespace across the cells *)

Lemma cells_are_simple :
  forallb (fun c => forallb Py.straight_line (Notebook.body_of c))
    Notebook.code_cells = true.
Proof. vm_compute. reflexivity. Qed.

Lemma cell_is_simple (c : Notebook.cell) :
  In c Notebook.code_cells ->
  forallb Py.straight_line (Notebook.body_of c) = true.
Proof.
  intros Hc. exact (proj1 (forallb_forall _ _) cells_are_simple c Hc).
Qed.






(** X1.  Run top to bottom in a fresh namespace, the cells find every name
    they look up, whatever the libraries return or raise: each name is
    imported or assigned by an earlier statement. *)
Theorem fresh_run_finds_every_name :
  forall {V H E : Type} (L : Sem.library V H E) (n : nat) (h : H),
    Flow.name_errors
      (fst (Sem.run_cell L (S n) Notebook.program (Sem.State ∅ h))) = [].
Proof.
  intros V H E L n h. apply (scoped_block L n Notebook.program) with (b := []).
  - vm_compute. reflexivity.
  - reflexivity.
  - vm_compute. reflexivity.
Qed.


(** X3.  What each code cell needs from the cells before it: cell 4 nothing,
    cell 6 [dataset], cell 8 [pd], [dataset] and [prince], cells 10, 17 and
    18 [mca], cells 12, 13, 15, 20 and 21 [mca] and [dataset].  With these
    names bound, in whatever state and over whatever library, no lookup of
    the cell fails. *)
Theorem cell_needs_suffice :
  List.map Flow.needs Notebook.code_cells
  = [ []; ["dataset"]; ["pd"; "dataset"; "prince"]; ["mca"];
      ["mca"; "dataset"]; ["mca"; "dataset"]; ["mca"; "dataset"];
      ["mca"]; ["mca"]; ["mca"; "dataset"]; ["mca"; "dataset"] ]
  /\ forall (c : Notebook.cell), In c Notebook.code_cells ->
     forall {V H E : Type} (L : Sem.library V H E) (n : nat) (st : Sem.state V H),
       forallb (Flow.bound st) (Flow.needs c) = true ->
       Flow.name_errors (fst (Sem.run_cell L (S n) (Notebook.body_of c) st)) = [].
Proof.
  split; [vm_compute; reflexivity|].
  intros c Hc V H E L n st Hneeds.
  apply (scoped_block L n (Notebook.body_of c) (cell_is_simple c Hc) [] st).
  - reflexivity.
  - exact Hneeds.
Qed.

(** X4.  A code cell completes only when the names it needs were bound
    before it ran: without them it ends with an exception, whatever the
    libraries do. *)
Theorem cell_completes_only_with_needs :
  forall (c : Notebook.cell), In c Notebook.code_cells ->
  forall {V H E : Type} (L : Sem.library V H E) (n : nat)
         (st st' : Sem.state V H) (u : unit),
    snd (Sem.run_cell L (S n) (Notebook.body_of c) st) = Sem.Done u st' ->
    forallb (Flow.bound st) (Flow.needs c) = true.
Proof.
  intros c Hc V H E L n st st' u Hdone.
  exact (requires_block L n (Notebook.body_of c) (cell_is_simple c Hc) [] st u st' Hdone).
Qed.

(** X5.  A code cell rebinds only the names it imports or assigns: cell 4
    [pd] and [dataset], cell 6 [prince] and [mca], cell 8 [one_hot] and
    [mca_no_one_hot], the other cells none.  Every other name is bound to
    the same object afterwards, whether the cell completed or raised; no
    name is ever unbound; and when the cell completed, its own names are
    bound. *)
Theorem cell_rebinds_only_its_names :
  List.map (fun c => Flow.assigned (Notebook.body_of c)) Notebook.code_cells
  = [ ["pd"; "dataset"]; ["prince"; "mca"; "mca"];
      ["one_hot"; "mca_no_one_hot"; "mca_no_one_hot"];
      []; []; []; []; []; []; []; [] ]
  /\ forall (c : Notebook.cell), In c Notebook.code_cells ->
     forall {V H E : Type} (L : Sem.library V H E) (n : nat) (st : Sem.state V H),
       match snd (Sem.run_cell L (S n) (Notebook.body_of c) st) with
       | Sem.Done _ st' =>
           Flow.agree_outside (Flow.assigned (Notebook.body_of c)) st st'
           /\ Flow.grows st st'
           /\ forallb (Flow.bound st') (Flow.assigned (Notebook.body_of c)) = true
       | Sem.Fail _ st' =>
           Flow.agree_outside (Flow.assigned (Notebook.body_of c)) st st'
           /\ Flow.grows st st'
       | Sem.Timeout => False
       end.
Proof.
  split; [vm_compute; reflexivity|].
  intros c Hc V H E L n st.
  pose proof (block_env L n (Notebook.body_of c) (cell_is_simple c Hc) st) as Henv.
  destruct (snd (Sem.run_cell L (S n) (Notebook.body_of c) st)) as [u st'|e st'|];
    [| exact Henv | exact Henv].
  destruct Henv as (Hout & Hgrow & Hin).
  split; [exact Hout|]. split; [exact Hgrow|]. apply bound_all, Hin.
Qed.

(** X6.  After a complete run from top to bottom in a fresh namespace, the
    bound names are exactly [pd], [dataset], [prince], [mca], [one_hot] and
    [mca_no_one_hot]. *)
Theorem complete_run_binds_six_names :
  forall {V H E : Type} (L : Sem.library V H E) (n : nat) (h : H)
         (st' : Sem.state V H) (u : unit),
    snd (Sem.run_cell L (S n) Notebook.program (Sem.State ∅ h)) = Sem.Done u st' ->
    forall x, Flow.bound st' x = true
              <-> In x ["pd"; "dataset"; "prince"; "mca"; "one_hot"; "mca_no_one_hot"].
Proof.
  intros V H E L n h st' u Hdone x.
  assert (Hsimple : forallb Py.straight_line Notebook.program = true)
    by (vm_compute; reflexivity).
  pose proof (block_env L n Notebook.program Hsimple (Sem.State ∅ h)) as Henv.
  rewrite Hdone in Henv. destruct Henv as (Hout & _ & Hin).
  assert (Hnames : forall y, In y (Flow.assigned Notebook.program)
                             <-> In y ["pd"; "dataset"; "prince"; "mca";
                                       "one_hot"; "mca_no_one_hot"]).
  { intros y. vm_compute. tauto. }
  rewrite <- Hnames. split.
  - intros Hx. destruct (in_dec string_dec x (Flow.assigned Notebook.program))
      as [Hy|Hy]; [exact Hy|].
    unfold Flow.bound in Hx. rewrite (Hout x Hy) in Hx. simpl in Hx.
    rewrite lookup_empty in Hx. discriminate.
  - apply Hin.
Qed.

(** X7.  Cells 8 to 21 begin by looking up a name ([pd] for cell 8, [mca]
    for the others).  Run where that name is unbound, such a cell ends at
    once with the NameError: no library is asked for anything and the state
    is as it was. *)
Theorem unbound_first_name_stops_cell :
  forall (c : Notebook.cell) (x : string),
    In c (drop 2 Notebook.code_cells) -> head (Flow.needs c) = Some x ->
    forall {V H E : Type} (L : Sem.library V H E) (n : nat) (st : Sem.state V H),
      Sem.env st !! x = None ->
      Sem.run_cell L (S n) (Notebook.body_of c) st
      = ([Sem.Raised (Sem.RLookup x) (Sem.name_error L x)],
         Sem.Fail (Sem.name_error L x) st).
Proof.
  intros c x Hc Hx V H E L n st Hunbound.
  each_cell Hc; vm_compute in Hx; injection Hx as <-;
    cbn; monad; unfold Sem.bind, Sem.lookup; rewrite Hunbound; reflexivity.
Qed.

(** X8.  Cells 4 and 6 begin with an import.  Once the import has returned
    the module, its name is bound to that module when the cell ends, even
    when a later statement of the cell raises: what a cell did before an
    exception stays. *)
Theorem import_stays_bound :
  forall (c : Notebook.cell) (m : string) (a : option string) (rest : list Py.stmt),
    In c Notebook.code_cells -> Notebook.body_of c = Py.SImport m a :: rest ->
    forall {V H E : Type} (L : Sem.library V H E) (n : nat) (st : Sem.state V H)
           (v : V) (h : H),
      Sem.import_module L m (Sem.heap st) = inr (v, h) ->
      match Flow.final (snd (Sem.run_cell L (S n) (Notebook.body_of c) st)) with
      | Some st' => Sem.env st' !! default m a = Some v
      | None => False
      end.
Proof.
  intros c m a rest Hc Hbody V H E L n st v h Himport.
  assert (Hrest : forallb Py.straight_line rest = true
                  /\ ~ In (default m a) (Flow.assigned rest)).
  { each_cell Hc; simpl in Hbody; try discriminate;
      injection Hbody as <- <- <-; (split; [reflexivity|]);
      apply known_not_in; reflexivity. }
  destruct Hrest as [Hsimple Hfree].
  rewrite Hbody, run_cell_cons. simpl. monad.
  unfold Sem.bind at 1. unfold Sem.bind at 1. unfold Sem.ask. rewrite Himport.
  unfold Sem.assign. simpl.
  pose proof (block_env L n rest Hsimple
                (Sem.State (<[default m a := v]> (Sem.env st)) h)) as Henv.
  destruct (Sem.run_cell L (S n) rest _) as [t [u st'|e st'|]]; simpl in *;
    [| |exact Henv].
  - destruct Henv as (Hout & _). rewrite (Hout _ Hfree). apply lookup_insert_eq.
  - destruct Henv as (Hout & _). rewrite (Hout _ Hfree). apply lookup_insert_eq.
Qed.

(** X9.  Cell 8 rebinds none of the names that the cells after it in the
    document read: wherever it runs, and whether it completes or raises,
    [mca] and [dataset] are bound to the same objects before and after it. *)
Theorem cell8_keeps_what_later_cells_read :
  forall {V H E : Type} (L : Sem.library V H E) (n : nat) (st : Sem.state V H),
    match Flow.final (snd (Sem.run_cell L (S n) (Notebook.body_of Notebook.cell8) st)) with
    | Some st' =>
        forall c x, In c (drop 3 Notebook.code_cells) -> In x (Flow.needs c) ->
                    Sem.env st' !! x = Sem.env st !! x
    | None => False
    end.
Proof.
  intros V H E L n st.
  assert (Hsimple : forallb Py.straight_line (Notebook.body_of Notebook.cell8) = true)
    by reflexivity.
  assert (Hfree : forall c x, In c (drop 3 Notebook.code_cells) ->
                              In x (Flow.needs c) ->
                              ~ In x (Flow.assigned (Notebook.body_of Notebook.cell8))).
  { intros c x Hc Hx. apply known_not_in.
    each_cell Hc; vm_compute in Hx;
      repeat (destruct Hx as [<-|Hx]; [reflexivity|]); destruct Hx. }
  pose proof (block_env L n _ Hsimple st) as Henv.
  destruct (snd (Sem.run_cell L (S n) (Notebook.body_of Notebook.cell8) st))
    as [u st'|e st'|]; simpl; [| |exact Henv].
  - intros c x Hc Hx. apply (proj1 Henv), (Hfree c x Hc Hx).
  - intros c x Hc Hx. apply (proj1 Henv), (Hfree c x Hc Hx).
Qed.

(** ** The namespace theorems at work on the small library *)


(** Cell 12 after cells 4 and 6: its two names are bound and both lookups
    succeed. *)
Lemma cell_needs_suffice_witness :
  forallb (Flow.bound Toy.fitted) (Flow.needs Notebook.cell12) = true
  /\ Flow.name_errors
       (fst (Sem.run_cell (Toy.lib "none") 1 (Notebook.body_of Notebook.cell12)
               Toy.fitted)) = [].
Proof.
  assert (Hneeds : forallb (Flow.bound Toy.fitted) (Flow.needs Notebook.cell12) = true)
    by (vm_compute; reflexivity).
  split; [exact Hneeds|].
  apply (proj2 cell_needs_suffice Notebook.cell12); [simpl; tauto | exact Hneeds].
Defined.

(** Cell 12 completes after cells 4 and 6, so [mca] and [dataset] were
    bound. *)
Lemma cell_completes_only_with_needs_witness :
  (exists st', snd (Sem.run_cell (Toy.lib "none") 1
                      (Notebook.body_of Notebook.cell12) Toy.fitted)
               = Sem.Done tt st')
  /\ forallb (Flow.bound Toy.fitted) ["mca"; "dataset"] = true.
Proof.
  assert (Hdone : exists st', snd (Sem.run_cell (Toy.lib "none") 1
                                     (Notebook.body_of Notebook.cell12) Toy.fitted)
                              = Sem.Done tt st')
    by (eexists; vm_compute; reflexivity).
  split; [exact Hdone|]. destruct Hdone as [st' Hdone].
  apply (cell_completes_only_with_needs Notebook.cell12) in Hdone;
    [exact Hdone | simpl; tauto].
Defined.

(** Cell 6 run where only cell 4 has run, on a library whose [fit] raises:
    [pd] and [dataset] are as before. *)
Lemma cell_rebinds_only_its_names_witness :
  let st := Sem.State (<["pd" := "pandas"]> (<["dataset" := "dataset"]> ∅)) 1%nat in
  match snd (Sem.run_cell (Toy.lib "prince.MCA().fit") 1
               (Notebook.body_of Notebook.cell6) st) with
  | Sem.Fail _ st' =>
      Sem.env st' !! "pd" = Some "pandas"
      /\ Sem.env st' !! "dataset" = Some "dataset"
  | _ => False
  end.
Proof.
  intros st.
  pose proof (proj2 cell_rebinds_only_its_names Notebook.cell6
                ltac:(simpl; tauto) _ _ _ (Toy.lib "prince.MCA().fit") 0%nat st) as Hw.
  destruct (snd (Sem.run_cell (Toy.lib "prince.MCA().fit") 1
                   (Notebook.body_of Notebook.cell6) st)) as [u st'|e st'|] eqn:Hrun;
    [vm_compute in Hrun; discriminate | | exact Hw].
  destruct Hw as [Hout _]. split.
  - rewrite (Hout "pd"); [reflexivity|]. apply known_not_in. reflexivity.
  - rewrite (Hout "dataset"); [reflexivity|]. apply known_not_in. reflexivity.
Defined.

(** The complete run on the small library. *)
Lemma complete_run_binds_six_names_witness :
  exists st',
    snd (Sem.run_cell (Toy.lib "none") 1 Notebook.program Toy.start)
    = Sem.Done tt st'
    /\ forall x, Flow.bound st' x = true
                 <-> In x ["pd"; "dataset"; "prince"; "mca"; "one_hot";
                           "mca_no_one_hot"].
Proof.
  eexists. split; [vm_compute; reflexivity|].
  apply (complete_run_binds_six_names (Toy.lib "none") 0%nat 0%nat _ tt).
  vm_compute. reflexivity.
Defined.

(** Cell 10 in a fresh namespace. *)
Lemma unbound_first_name_stops_cell_witness :
  Sem.run_cell (Toy.lib "none") 1 (Notebook.body_of Notebook.cell10) Toy.start
  = ([Sem.Raised (Sem.RLookup "mca") "NameError: mca"],
     Sem.Fail "NameError: mca" Toy.start).
Proof.
  apply (unbound_first_name_stops_cell Notebook.cell10 "mca");
    [simpl; tauto | reflexivity | reflexivity].
Defined.

(** Cell 6 in a fresh namespace on a library whose constructor raises: the
    cell ends with that exception and [prince] is bound. *)
Lemma import_stays_bound_witness :
  exists st',
    snd (Sem.run_cell (Toy.lib "prince.MCA") 1 (Notebook.body_of Notebook.cell6)
           Toy.start)
    = Sem.Fail "Error in prince.MCA" st'
    /\ Sem.env st' !! "prince" = Some "prince".
Proof.
  pose proof (import_stays_bound Notebook.cell6 "prince" None _
                ltac:(simpl; tauto) eq_refl (Toy.lib "prince.MCA") 0%nat Toy.start
                "prince" 0%nat eq_refl) as Hw.
  destruct (snd (Sem.run_cell (Toy.lib "prince.MCA") 1
                   (Notebook.body_of Notebook.cell6) Toy.start))
    as [u st'|e st'|] eqn:Hrun; [vm_compute in Hrun; discriminate | | destruct Hw].
  exists st'. split; [|exact Hw].
  vm_compute in Hrun. injection Hrun as <- _. reflexivity.
Defined.

(** Cell 8 after cells 4 and 6. *)
Lemma cell8_keeps_what_later_cells_read_witness :
  exists st',
    snd (Sem.run_cell (Toy.lib "none") 1 (Notebook.body_of Notebook.cell8) Toy.fitted)
    = Sem.Done tt st'
    /\ Sem.env st' !! "mca" = Some "mca"
    /\ Sem.env st' !! "dataset" = Some "dataset".
Proof.
  pose proof (cell8_keeps_what_later_cells_read (Toy.lib "none") 0%nat Toy.fitted) as Hw.
  destruct (snd (Sem.run_cell (Toy.lib "none") 1 (Notebook.body_of Notebook.cell8)
                   Toy.fitted)) as [[] st'|e st'|] eqn:Hrun;
    [| vm_compute in Hrun; discriminate | destruct Hw].
  exists st'. split; [reflexivity|]. simpl in Hw. split.
  - rewrite (Hw Notebook.cell12 "mca"); [reflexivity | simpl; tauto | simpl; tauto].
  - rewrite (Hw Notebook.cell12 "dataset"); [reflexivity | simpl; tauto | simpl; tauto].
Defined.
